(** * The ReAct agent example: tool execution state and stream draining

    A shallow embedding of the two Go packages of the example,

    - package [tools]: [ToolExecutionState], [GetToolState], [SetToolState],
      the [safeTool] decorator and the two query tools;
    - package [main]: the [LoggerCallback] lifecycle hooks, among them the
      stream drain started by [OnEndWithStreamOutput];

    together with the properties their documentation states.

    Go values live in an explicit [World]: the cells behind
    [*ToolExecutionState] pointers, what was written to standard output, the
    random source and the calls that reached the backend.  Every function
    with an effect takes a world and returns one.  Names follow the Go
    source, a package qualifier [pkg.Name] being written [pkg_Name]. *)

From Stdlib Require Import QArith.
From stdpp Require Import gmap strings list.
From Equations Require Import Equations.

Local Open Scope string_scope.
Local Open Scope Z_scope.
Local Open Scope list_scope.

(** ** Go runtime values *)

(** An address of a heap cell.  A Go pointer is [option loc], [None] being
    the nil pointer. *)
Definition loc := positive.

(** Values of the interface type [error] that are not nil.  [io_EOF] is the
    sentinel of package [io]; [errorString] is what [errors.New] and
    [fmt.Errorf] without a wrapping verb build; [wrapError] is [fmt.Errorf]
    with a wrapped cause. *)
Inductive err : Type :=
| io_EOF
| errorString (msg : string)
| wrapError (msg : string) (cause : err).

(** The interface type [error]: [None] is nil. *)
Definition error := option err.

#[export] Instance err_eq_dec : EqDecision err.
Proof. solve_decision. Defined.

(** The method [Error() string]. *)
Definition Error (e : err) : string :=
  match e with
  | io_EOF => "EOF"
  | errorString msg => msg
  | wrapError msg _ => msg
  end.

(** [errors.Is]: [e] or one of the causes it wraps is [target]. *)
Fixpoint errors_Is (e target : err) : bool :=
  if decide (e = target) then true
  else match e with
       | wrapError _ cause => errors_Is cause target
       | _ => false
       end.

(** ** Structs of the framework that the example reads *)

(** [schema.Message], the fields the example reads. *)
Record schema_Message := {
  Role : string;
  Content : string;
}.

Definition schema_Assistant : string := "assistant".

(** [model.CallbackOutput]; [Message] is a pointer. *)
Record model_CallbackOutput := {
  Message : option schema_Message;
}.

(** [tool.CallbackInput] and [tool.CallbackOutput]. *)
Record tool_CallbackInput := {
  ArgumentsInJSON : string;
}.

Record tool_CallbackOutput := {
  Response : string;
}.

#[export] Instance schema_Message_eq_dec : EqDecision schema_Message.
Proof. solve_decision. Defined.
#[export] Instance model_CallbackOutput_eq_dec : EqDecision model_CallbackOutput.
Proof. solve_decision. Defined.
#[export] Instance tool_CallbackInput_eq_dec : EqDecision tool_CallbackInput.
Proof. solve_decision. Defined.
#[export] Instance tool_CallbackOutput_eq_dec : EqDecision tool_CallbackOutput.
Proof. solve_decision. Defined.

(** ** Dynamically typed values *)

(** A value of type [any] (an empty interface) carries its dynamic type.
    The constructors are the dynamic types that occur in the example; a
    pointer constructor takes [None] for a nil pointer of that type, which
    is not the nil interface [any_nil]. *)
Inductive any : Type :=
| any_nil
| any_string (s : string)
| any_int (n : Z)
| any_toolStateKey
| any_ToolExecutionState (p : option loc)
| any_Message (m : option schema_Message)
| any_model_CallbackOutput (o : option model_CallbackOutput)
| any_tool_CallbackInput (i : option tool_CallbackInput)
| any_tool_CallbackOutput (o : option tool_CallbackOutput).

#[export] Instance any_eq_dec : EqDecision any.
Proof. solve_decision. Defined.

(** [tool.ConvCallbackInput]: a type switch; a string is taken as the
    arguments, any other dynamic type gives nil. *)
Definition tool_ConvCallbackInput (src : any) : option tool_CallbackInput :=
  match src with
  | any_tool_CallbackInput t => t
  | any_string t => Some {| ArgumentsInJSON := t |}
  | _ => None
  end.

(** [tool.ConvCallbackOutput]. *)
Definition tool_ConvCallbackOutput (src : any) : option tool_CallbackOutput :=
  match src with
  | any_tool_CallbackOutput t => t
  | any_string t => Some {| Response := t |}
  | _ => None
  end.

(** [model.ConvCallbackOutput]: a message is put into a fresh output. *)
Definition model_ConvCallbackOutput (src : any) : option model_CallbackOutput :=
  match src with
  | any_model_CallbackOutput t => t
  | any_Message t => Some {| Message := t |}
  | _ => None
  end.

(** ** Package [context] *)

(** A [context.Context] is a chain of key and value pairs, the binding
    added last first; [context.Background()] is the empty chain. *)
Definition Context := list (any * any).

Definition context_Background : Context := [].

(** [context.WithValue] builds a node in front of the parent, which it
    does not write to. *)
Definition context_WithValue (parent : Context) (key val : any) : Context :=
  (key, val) :: parent.

(** The method [Value]: the value of the nearest binding of [key], nil
    when there is none. *)
Fixpoint context_Value (ctx : Context) (key : any) : any :=
  match ctx with
  | [] => any_nil
  | (k, v) :: parent => if decide (k = key) then v else context_Value parent key
  end.

(** ** Package [tools]: the execution state *)

Record ToolExecutionState := {
  Success : bool;
}.

#[export] Instance ToolExecutionState_inhabited : Inhabited ToolExecutionState :=
  populate {| Success := false |}.

(** ** The world *)

Record QueryRestaurantsParam := {
  Location : string;
  Topn : Z;
}.

Record QueryDishesParam := {
  RestaurantID : string;
  QueryDishesParam_Topn : Z;
}.

(** A call that reached the backend service, with the parameter it got. *)
Inductive BackendCall : Type :=
| CallQueryRestaurants (p : QueryRestaurantsParam)
| CallQueryDishes (p : QueryDishesParam).

Record World := {
  (** the cells that [*ToolExecutionState] pointers point to *)
  heap : gmap loc ToolExecutionState;
  (** what [fmt.Printf] wrote, one entry a call, oldest first *)
  stdout : list string;
  (** [rand_source n] is what the [n]-th call of [rand.Float32] returns: the
      generator is seeded from the wall clock before each draw, so the
      values are the environment's choice *)
  rand_source : nat → Q;
  rand_draws : nat;
  (** the calls made to the backend service, oldest first *)
  backend_calls : list BackendCall;
}.

Definition set_heap (f : gmap loc ToolExecutionState → gmap loc ToolExecutionState)
    (w : World) : World :=
  {| heap := f (heap w); stdout := stdout w; rand_source := rand_source w;
     rand_draws := rand_draws w; backend_calls := backend_calls w |}.

(** [fmt.Printf], applied to the text already formatted. *)
Definition fmt_Printf (text : string) (w : World) : World :=
  {| heap := heap w; stdout := stdout w ++ [text]; rand_source := rand_source w;
     rand_draws := rand_draws w; backend_calls := backend_calls w |}.

(** [rand.Seed(time.Now().UnixNano())] followed by [rand.Float32()]. *)
Definition rand_Float32 (w : World) : Q * World :=
  (rand_source w (rand_draws w),
   {| heap := heap w; stdout := stdout w; rand_source := rand_source w;
      rand_draws := S (rand_draws w); backend_calls := backend_calls w |}).

Definition log_backend_call (c : BackendCall) (w : World) : World :=
  {| heap := heap w; stdout := stdout w; rand_source := rand_source w;
     rand_draws := rand_draws w; backend_calls := backend_calls w ++ [c] |}.

(** [&ToolExecutionState{...}]: a cell at an address not in use. *)
Definition new_ToolExecutionState (init : ToolExecutionState) (w : World) : loc * World :=
  let p := fresh (dom (heap w)) in
  (p, set_heap (insert p init) w).

(** Reading and writing through a pointer that is not nil. *)
Definition load (p : loc) (w : World) : ToolExecutionState := heap w !!! p.

Definition store (p : loc) (v : ToolExecutionState) (w : World) : World :=
  set_heap (insert p v) w.

(** ** Package [tools]: state lookup and binding *)

(** [GetToolState]: nil when nothing is bound under the key or when what is
    bound is not a [*ToolExecutionState]. *)
Definition GetToolState (ctx : Context) : option loc :=
  let v := context_Value ctx any_toolStateKey in
  if decide (v = any_nil) then None
  else match v with
       | any_ToolExecutionState state => state
       | _ => None
       end.

(** [SetToolState]. *)
Definition SetToolState (ctx : Context) (state : option loc) : Context :=
  context_WithValue ctx any_toolStateKey (any_ToolExecutionState state).

(** ** Package [tool]: the capability interface *)

(** [tool.Option]: opaque to the example, which only hands options on. *)
Definition tool_Option := string.

(** [schema.ParameterInfo] and [schema.ToolInfo], as far as the example
    fills them in. *)
Record schema_ParameterInfo := {
  Type_ : string;
  ParameterInfo_Desc : string;
  Required : bool;
}.

Record schema_ToolInfo := {
  Name : string;
  Desc : string;
  ParamsOneOf : gmap string schema_ParameterInfo;
}.

(** The interface [tool.InvokableTool]. *)
Class tool_InvokableTool (T : Type) := {
  Info : T → Context → option schema_ToolInfo * error;
  InvokableRun : T → Context → string → list tool_Option → World → (string * error) * World;
}.

(** ** Package [tools]: the [safeTool] decorator *)

(** [safeTool] embeds the tool it wraps. *)
Record safeTool (T : Type) := {
  InvokableTool : T;
}.
Arguments InvokableTool {T} _.

Section SafeTool.
Context {T : Type} `{!tool_InvokableTool T}.

Definition safeTool_Info (s : safeTool T) (ctx : Context) : option schema_ToolInfo * error :=
  Info (InvokableTool s) ctx.

(** [safeTool.InvokableRun]: run the wrapped tool, record in the state
    bound on [ctx] whether it failed, and hand a failure on as text. *)
Definition safeTool_InvokableRun (s : safeTool T) (ctx : Context)
    (argumentsInJSON : string) (opts : list tool_Option) (w : World)
    : (string * error) * World :=
  let '((out, e), w) := InvokableRun (InvokableTool s) ctx argumentsInJSON opts w in
  let state := GetToolState ctx in
  let w := match state with
           | Some p => store p {| Success := bool_decide (e = None) |} w
           | None => w
           end in
  match e with
  | Some e => ((Error e, None), w)
  | None => ((out, None), w)
  end.

#[export] Instance safeTool_is_InvokableTool : tool_InvokableTool (safeTool T) := {
  Info := safeTool_Info;
  InvokableRun := safeTool_InvokableRun;
}.
End SafeTool.

(** ** Package [tools]: the two query tools *)

Record Restaurant := {
  Restaurant_ID : string;
  Restaurant_Name : string;
  Place : string;
  Restaurant_Desc : string;
  Restaurant_Score : Z;
}.

Record Dish := {
  Dish_Name : string;
  Dish_Desc : string;
  Price : Z;
  Dish_Score : Z;
}.

(** The operations of [encoding/json] at the types the tools use them at.
    [Unmarshal] takes the struct it decodes into and returns it filled in,
    with the error.  The package is a class, so that a development can run
    the tools against a decoder of its choice. *)
Class encoding_json := {
  Unmarshal_QueryRestaurantsParam : string → QueryRestaurantsParam → QueryRestaurantsParam * error;
  Unmarshal_QueryDishesParam : string → QueryDishesParam → QueryDishesParam * error;
  Marshal_map : gmap string string → string * error;
  Marshal_Restaurants : list Restaurant → string * error;
  Marshal_Dishes : list Dish → string * error;
}.

(** The backend behind the tools, [fakeService]: its two queries. *)
Record fakeService := {
  QueryRestaurants : Context → QueryRestaurantsParam → list Restaurant * error;
  QueryDishes : Context → QueryDishesParam → list Dish * error;
}.

Record ToolQueryRestaurants := {
  ToolQueryRestaurants_backService : fakeService;
}.

Record ToolQueryDishes := {
  ToolQueryDishes_backService : fakeService;
}.

(** [a < b] on the values [rand.Float32] returns. *)
Definition float_lt (a b : Q) : bool := negb (Qle_bool b a).

Section QueryTools.
Context `{!encoding_json}.
(** the package variable [restService] *)
Variable restService : fakeService.

Definition ToolQueryRestaurants_Info (t : ToolQueryRestaurants) (ctx : Context)
    : option schema_ToolInfo * error :=
  (Some {| Name := "query_restaurants";
           Desc := "Query restaurants";
           ParamsOneOf :=
             <["location" := {| Type_ := "string";
                                ParameterInfo_Desc := "The location of the restaurant";
                                Required := true |}]>
             (<["topn" := {| Type_ := "number";
                             ParameterInfo_Desc := "top n restaurant in some location sorted by score";
                             Required := false |}]> ∅) |},
   None).

(** The text of the simulated failure. *)
Definition errorMsg : gmap string string :=
  <["error" := "service temporarily unavailable"]>
  (<["message" := "The restaurant service is temporarily unavailable. Please retry later."]>
  (<["retry" := "true"]> ∅)).

(** [ToolQueryRestaurants.InvokableRun]. *)
Definition ToolQueryRestaurants_InvokableRun (t : ToolQueryRestaurants) (ctx : Context)
    (argumentsInJSON : string) (opts : list tool_Option) (w : World)
    : (string * error) * World :=
  let '(p, err) := Unmarshal_QueryRestaurantsParam argumentsInJSON
                     {| Location := ""; Topn := 0 |} in
  match err with
  | Some err => (("", Some err), w)
  | None =>
    let p := if decide (Topn p = 0) then {| Location := Location p; Topn := 3 |} else p in
    let '(r, w) := rand_Float32 w in
    if float_lt r (1 # 2) then
      let '(errorJSON, _) := Marshal_map errorMsg in
      (("", Some (errorString errorJSON)), w)
    else
      let w := log_backend_call (CallQueryRestaurants p) w in
      let '(rests, err) := QueryRestaurants (ToolQueryRestaurants_backService t) ctx p in
      match err with
      | Some err => (("", Some err), w)
      | None =>
        let '(res, err) := Marshal_Restaurants rests in
        match err with
        | Some err => (("", Some err), w)
        | None => ((res, None), w)
        end
      end
  end.

#[export] Instance ToolQueryRestaurants_is_InvokableTool : tool_InvokableTool ToolQueryRestaurants := {
  Info := ToolQueryRestaurants_Info;
  InvokableRun := ToolQueryRestaurants_InvokableRun;
}.

Definition ToolQueryDishes_Info (t : ToolQueryDishes) (ctx : Context)
    : option schema_ToolInfo * error :=
  (Some {| Name := "query_dishes";
           Desc := "查询一家餐厅有哪些菜品";
           ParamsOneOf :=
             <["restaurant_id" := {| Type_ := "string";
                                     ParameterInfo_Desc := "The id of one restaurant";
                                     Required := true |}]>
             (<["topn" := {| Type_ := "number";
                             ParameterInfo_Desc := "top n dishes in one restaurant sorted by score";
                             Required := false |}]> ∅) |},
   None).

(** [ToolQueryDishes.InvokableRun]. *)
Definition ToolQueryDishes_InvokableRun (t : ToolQueryDishes) (ctx : Context)
    (argumentsInJSON : string) (opts : list tool_Option) (w : World)
    : (string * error) * World :=
  let '(p, err) := Unmarshal_QueryDishesParam argumentsInJSON
                     {| RestaurantID := ""; QueryDishesParam_Topn := 0 |} in
  match err with
  | Some err => (("", Some err), w)
  | None =>
    let p := if decide (QueryDishesParam_Topn p = 0)
             then {| RestaurantID := RestaurantID p; QueryDishesParam_Topn := 5 |} else p in
    let w := log_backend_call (CallQueryDishes p) w in
    let '(rests, err) := QueryDishes (ToolQueryDishes_backService t) ctx p in
    match err with
    | Some err => (("", Some err), w)
    | None =>
      let '(res, err) := Marshal_Dishes rests in
      match err with
      | Some err => (("", Some err), w)
      | None => ((res, None), w)
      end
    end
  end.

#[export] Instance ToolQueryDishes_is_InvokableTool : tool_InvokableTool ToolQueryDishes := {
  Info := ToolQueryDishes_Info;
  InvokableRun := ToolQueryDishes_InvokableRun;
}.

Definition GetRestaurantTool : safeTool ToolQueryRestaurants :=
  {| InvokableTool := {| ToolQueryRestaurants_backService := restService |} |}.

Definition GetDishTool : safeTool ToolQueryDishes :=
  {| InvokableTool := {| ToolQueryDishes_backService := restService |} |}.
End QueryTools.

(** ** Package [main]: what the hooks are called with *)

(** [components.Component] is a string type. *)
Definition components_Component := string.
Definition components_ComponentOfTool : components_Component := "Tool".
Definition components_ComponentOfChatModel : components_Component := "ChatModel".

(** [callbacks.RunInfo]. *)
Record callbacks_RunInfo := {
  RunInfo_Name : string;
  RunInfo_Type : string;
  Component : components_Component;
}.

(** The line feed that ends the formats. *)
Definition LF : string := String (Ascii.ascii_of_nat 10) EmptyString.

(** A [schema.StreamReader] of [any] values: what the calls of [Recv] still
    to come return, a frame or an error, and how often [Close] was called.
    Once [pending] is used up, [Recv] returns [io.EOF]. *)
Record StreamReader := {
  pending : list (any + err);
  closed : nat;
}.

(** The method [Recv]: the next frame and a nil error, or a nil frame and
    the error. *)
Definition Recv (sr : StreamReader) : (any * error) * StreamReader :=
  match pending sr with
  | [] => ((any_nil, Some io_EOF), sr)
  | inl frame :: rest => ((frame, None), {| pending := rest; closed := closed sr |})
  | inr e :: rest => ((any_nil, Some e), {| pending := rest; closed := closed sr |})
  end.

(** The method [Close]. *)
Definition Close (sr : StreamReader) : StreamReader :=
  {| pending := pending sr; closed := S (closed sr) |}.

(** What runs as a goroutine: a function on the reader it captured and the
    world. *)
Definition goroutine := StreamReader → World → StreamReader * World.

(** ** Package [main]: [LoggerCallback] *)

Record LoggerCallback : Set := mkLoggerCallback {}.

(** [LoggerCallback.OnStart]. *)
Definition OnStart (cb : LoggerCallback) (ctx : Context) (info : callbacks_RunInfo)
    (input : any) (w : World) : Context * World :=
  if decide (Component info = components_ComponentOfTool) then
    match tool_ConvCallbackInput input with
    | Some tci =>
      let w := fmt_Printf ("[TOOL] " +:+ RunInfo_Name info +:+ ": "
                           +:+ ArgumentsInJSON tci +:+ LF) w in
      let '(state, w) := new_ToolExecutionState {| Success := false |} w in
      (SetToolState ctx (Some state), w)
    | None => (ctx, w)
    end
  else (ctx, w).

(** [LoggerCallback.OnEnd]. *)
Definition OnEnd (cb : LoggerCallback) (ctx : Context) (info : callbacks_RunInfo)
    (output : any) (w : World) : Context * World :=
  if decide (Component info = components_ComponentOfTool) then
    match tool_ConvCallbackOutput output with
    | Some tco =>
      let responseStr := Response tco in
      let responseStr :=
        if decide (200 < String.length responseStr)%nat
        then String.substring 0 200 responseStr +:+ "..."
        else responseStr in
      let w := fmt_Printf ("[TOOL] " +:+ RunInfo_Name info +:+ ": result = "
                           +:+ responseStr +:+ LF) w in
      let state := GetToolState ctx in
      match state with
      | Some p =>
        if Success (load p w)
        then (ctx, fmt_Printf ("[TOOL] " +:+ RunInfo_Name info +:+ ": execution succeeded" +:+ LF) w)
        else (ctx, fmt_Printf ("[TOOL] " +:+ RunInfo_Name info +:+ ": execution failed" +:+ LF) w)
      | None => (ctx, w)
      end
    | None => (ctx, w)
    end
  else (ctx, w).

(** [LoggerCallback.OnError]. *)
Definition OnError (cb : LoggerCallback) (ctx : Context) (info : callbacks_RunInfo)
    (e : err) (w : World) : Context * World :=
  (ctx, fmt_Printf ("[ERROR] [" +:+ Component info +:+ ":" +:+ RunInfo_Type info +:+ ":"
                    +:+ RunInfo_Name info +:+ "] " +:+ Error e +:+ LF) w).

(** [LoggerCallback.OnStartWithStreamInput]: the deferred [Close] runs when
    the function returns. *)
Definition OnStartWithStreamInput (cb : LoggerCallback) (ctx : Context)
    (info : callbacks_RunInfo) (input : StreamReader) : Context * StreamReader :=
  (ctx, Close input).

(** What the drain does with one frame it received. *)
Definition forward_frame (frame : any) (w : World) : World :=
  match model_ConvCallbackOutput frame with
  | Some cbo =>
    match Message cbo with
    | Some msg =>
      if decide (Content msg ≠ "")
      then fmt_Printf (schema_Assistant +:+ ": " +:+ Content msg +:+ LF) w
      else w
    | None => w
    end
  | None => w
  end.

(** The [for] loop of the goroutine: one [Recv] a turn, until it returns an
    error.  [io.EOF] leaves the loop by [break], another error is printed
    and leaves by [return]; either way the function is left next. *)
Equations drain_loop (output : StreamReader) (w : World) : StreamReader * World
    by wf (length (pending output)) lt :=
  drain_loop output w with Logic.inspect (Recv output) := {
    | exist _ ((frame, Some e), output') _ =>
        if errors_Is e io_EOF then (output', w)
        else (output', fmt_Printf ("[ERROR] failed to recv from stream: " +:+ Error e +:+ LF) w)
    | exist _ ((frame, None), output') Hrecv =>
        drain_loop output' (forward_frame frame w)
  }.
Next Obligation.
  unfold Recv in Hrecv.
  destruct (pending output) as [|[next|e] rest]; inversion Hrecv; subst; simpl; lia.
Qed.

(** The function literal that [OnEndWithStreamOutput] starts with [go]; its
    deferred [Close] runs on each way out of the loop. *)
Definition OnEndWithStreamOutput_func1 : goroutine :=
  λ output w,
    let '(output, w) := drain_loop output w in
    (Close output, w).

(** [LoggerCallback.OnEndWithStreamOutput]: the context it returns, the
    reader and the world as it leaves them, and the goroutines it started. *)
Definition OnEndWithStreamOutput (cb : LoggerCallback) (ctx : Context)
    (info : callbacks_RunInfo) (output : StreamReader) (w : World)
    : Context * (StreamReader * World) * list goroutine :=
  if decide (Component info = components_ComponentOfChatModel) then
    (ctx, (output, w), [OnEndWithStreamOutput_func1])
  else
    (ctx, (Close output, w), []).

(** Running the goroutines that were started, each to its end. *)
Definition run_goroutines (gs : list goroutine) (s : StreamReader * World)
    : StreamReader * World :=
  foldl (λ s g, g s.1 s.2) s gs.


(** ** Package [main]: the tool call checker *)

(** How a call ends: it returns, or the runtime panics (here, on a nil
    pointer that is dereferenced). *)
Inductive outcome (A : Type) : Type :=
| Returned (a : A)
| Panicked.
Arguments Returned {A} _.
Arguments Panicked {A}.

(** [schema.ToolCall], as far as one is told from another. *)
Record schema_ToolCall := {
  ToolCall_ID : string;
  ToolCall_Name : string;
  ToolCall_Arguments : string;
}.

(** A [schema.Message] together with its field [ToolCalls], which the tool
    call checker reads. *)
Record Message_with_ToolCalls := {
  message : schema_Message;
  ToolCalls : list schema_ToolCall;
}.

(** A [schema.StreamReader] of [*schema.Message]: as [StreamReader], with
    message pointers for frames. *)
Record MessageStreamReader := {
  pending_messages : list (option Message_with_ToolCalls + err);
  closed_messages : nat;
}.

Definition Recv_message (sr : MessageStreamReader)
    : (option Message_with_ToolCalls * error) * MessageStreamReader :=
  match pending_messages sr with
  | [] => ((None, Some io_EOF), sr)
  | inl msg :: rest =>
      ((msg, None), {| pending_messages := rest; closed_messages := closed_messages sr |})
  | inr e :: rest =>
      ((None, Some e), {| pending_messages := rest; closed_messages := closed_messages sr |})
  end.

Definition Close_message (sr : MessageStreamReader) : MessageStreamReader :=
  {| pending_messages := pending_messages sr; closed_messages := S (closed_messages sr) |}.

(** The [for] loop of [toolCallChecker]: it returns at the first error and
    at the first message with tool calls; [msg.ToolCalls] on a nil message
    panics. *)
Equations toolCallChecker_loop (sr : MessageStreamReader)
    : MessageStreamReader * outcome (bool * error)
    by wf (length (pending_messages sr)) lt :=
  toolCallChecker_loop sr with Logic.inspect (Recv_message sr) := {
    | exist _ ((msg, Some e), sr') _ =>
        if errors_Is e io_EOF then (sr', Returned (false, None))
        else (sr', Returned (false, Some e))
    | exist _ ((None, None), sr') _ => (sr', Panicked)
    | exist _ ((Some msg, None), sr') Hrecv =>
        if decide (0 < length (ToolCalls msg))%nat then (sr', Returned (true, None))
        else toolCallChecker_loop sr'
  }.
Next Obligation.
  unfold Recv_message in Hrecv.
  destruct (pending_messages sr) as [|[next|e] rest]; inversion Hrecv; subst; simpl; lia.
Qed.

(** [toolCallChecker], the function literal of [main]: its deferred [Close]
    runs however the loop is left. *)
Definition toolCallChecker (ctx : Context) (sr : MessageStreamReader)
    : MessageStreamReader * outcome (bool * error) :=
  let '(sr, result) := toolCallChecker_loop sr in
  (Close_message sr, result).

(** ** Package [main], the second listing of the file: [LoggerCallback]
    without the execution state

    [OnError] and [OnStartWithStreamInput] read as in the first listing. *)

Module stateless.

(** [LoggerCallback.OnStart]. *)
Definition OnStart (cb : LoggerCallback) (ctx : Context) (info : callbacks_RunInfo)
    (input : any) (w : World) : Context * World :=
  if decide (Component info = components_ComponentOfTool) then
    match tool_ConvCallbackInput input with
    | Some tci =>
      (ctx, fmt_Printf ("[TOOL] " +:+ RunInfo_Name info +:+ ": "
                        +:+ ArgumentsInJSON tci +:+ LF) w)
    | None => (ctx, w)
    end
  else (ctx, w).

(** [LoggerCallback.OnEnd]. *)
Definition OnEnd (cb : LoggerCallback) (ctx : Context) (info : callbacks_RunInfo)
    (output : any) (w : World) : Context * World :=
  if decide (Component info = components_ComponentOfTool) then
    match tool_ConvCallbackOutput output with
    | Some tco =>
      let responseStr := Response tco in
      let responseStr :=
        if decide (200 < String.length responseStr)%nat
        then String.substring 0 200 responseStr +:+ "..."
        else responseStr in
      (ctx, fmt_Printf ("[TOOL] " +:+ RunInfo_Name info +:+ ": result = "
                        +:+ responseStr +:+ LF) w)
    | None => (ctx, w)
    end
  else (ctx, w).

(** The type switch on a frame.  In the cases of the two pointer types the
    pointer is dereferenced, which panics when it is nil. *)
Definition switch_frame (frame : any) (w : World) : World * outcome unit :=
  match frame with
  | any_Message v =>
      match v with
      | Some v =>
          if decide (Content v ≠ "")
          then (fmt_Printf (schema_Assistant +:+ ": " +:+ Content v +:+ LF) w, Returned tt)
          else (w, Returned tt)
      | None => (w, Panicked)
      end
  | any_model_CallbackOutput v =>
      match v with
      | Some v =>
          match Message v with
          | Some msg =>
              if decide (Content msg ≠ "")
              then (fmt_Printf (schema_Assistant +:+ ": " +:+ Content msg +:+ LF) w,
                    Returned tt)
              else (w, Returned tt)
          | None => (w, Returned tt)
          end
      | None => (w, Panicked)
      end
  | _ => (w, Returned tt)
  end.

(** The [for] loop of the goroutine. *)
Equations switch_loop (output : StreamReader) (w : World)
    : (StreamReader * World) * outcome unit
    by wf (length (pending output)) lt :=
  switch_loop output w with Logic.inspect (Recv output) := {
    | exist _ ((frame, Some e), output') _ =>
        if errors_Is e io_EOF then ((output', w), Returned tt)
        else ((output',
               fmt_Printf ("[ERROR] failed to recv from stream: " +:+ Error e +:+ LF) w),
              Returned tt)
    | exist _ ((frame, None), output') Hrecv
        with switch_frame frame w := {
        | (w', Panicked) => ((output', w'), Panicked)
        | (w', Returned _) => switch_loop output' w'
      }
  }.
Next Obligation.
  unfold Recv in Hrecv.
  destruct (pending output) as [|[next|e] rest]; inversion Hrecv; subst; simpl; lia.
Qed.

(** The function literal started with [go]; the deferred [Close] runs on a
    panic as well. *)
Definition OnEndWithStreamOutput_func1 (output : StreamReader) (w : World)
    : (StreamReader * World) * outcome unit :=
  let '((output, w), result) := switch_loop output w in
  ((Close output, w), result).

(** [LoggerCallback.OnEndWithStreamOutput]. *)
Definition OnEndWithStreamOutput (cb : LoggerCallback) (ctx : Context)
    (info : callbacks_RunInfo) (output : StreamReader) (w : World)
    : Context * (StreamReader * World)
      * list (StreamReader → World → (StreamReader * World) * outcome unit) :=
  if decide (Component info = components_ComponentOfChatModel) then
    (ctx, (output, w), [OnEndWithStreamOutput_func1])
  else
    (ctx, (Close output, w), []).

End stateless.

(** ** Test doubles

    Stand-ins for what surrounds the example, to run it on concrete
    inputs: a decoder that knows a few argument strings, a backend with
    two entries, tools that return what they are told to. *)

Definition DQ : string := String (Ascii.ascii_of_nat 34) EmptyString.

(** The arguments [{"topn":7}]. *)
Definition args_topn7 : string := "{" +:+ DQ +:+ "topn" +:+ DQ +:+ ":7}".

(** What the decoder of the test doubles answers to arguments that are not
    JSON. *)
Definition decode_error : err :=
  errorString "invalid character 'n' looking for beginning of object key string".

Definition stub_json : encoding_json := {|
  Unmarshal_QueryRestaurantsParam args p :=
    if decide (args = "{}") then (p, None)
    else if decide (args = args_topn7) then ({| Location := Location p; Topn := 7 |}, None)
    else (p, Some decode_error);
  Unmarshal_QueryDishesParam args p :=
    if decide (args = "{}") then (p, None)
    else if decide (args = args_topn7)
         then ({| RestaurantID := RestaurantID p; QueryDishesParam_Topn := 7 |}, None)
    else (p, Some decode_error);
  Marshal_map m := ("{...}", None);
  Marshal_Restaurants rests := ("[" +:+ String.concat "," (Restaurant_Name <$> rests) +:+ "]", None);
  Marshal_Dishes dishes := ("[" +:+ String.concat "," (Dish_Name <$> dishes) +:+ "]", None);
|}.

Definition stub_service : fakeService := {|
  QueryRestaurants ctx p :=
    ([{| Restaurant_ID := "1001"; Restaurant_Name := "Old Place"; Place := Location p;
         Restaurant_Desc := ""; Restaurant_Score := 3 |}], None);
  QueryDishes ctx p :=
    ([{| Dish_Name := "Noodles"; Dish_Desc := ""; Price := 20; Dish_Score := 5 |}], None);
|}.

(** A backend that answers with as many entries as it was asked for, so
    that the [Topn] it got shows in the payload. *)
Definition counting_service : fakeService := {|
  QueryRestaurants ctx p :=
    (replicate (Z.to_nat (Topn p))
       {| Restaurant_ID := "1001"; Restaurant_Name := "r"; Place := Location p;
          Restaurant_Desc := ""; Restaurant_Score := 3 |}, None);
  QueryDishes ctx p :=
    (replicate (Z.to_nat (QueryDishesParam_Topn p))
       {| Dish_Name := "d"; Dish_Desc := ""; Price := 20; Dish_Score := 5 |}, None);
|}.

(** A tool that returns what it holds. *)
Record cannedTool := {
  canned : string * error;
}.

#[export] Instance cannedTool_is_InvokableTool : tool_InvokableTool cannedTool := {
  Info _ _ := (None, None);
  InvokableRun t _ _ _ w := (canned t, w);
}.

(** A world with nothing allocated and nothing printed, whose random
    source answers [r] to each draw. *)
Definition world_with_draw (r : Q) : World :=
  {| heap := ∅; stdout := []; rand_source := λ _, r; rand_draws := 0;
     backend_calls := [] |}.

Definition cb : LoggerCallback := mkLoggerCallback.

Definition tool_info : callbacks_RunInfo :=
  {| RunInfo_Name := "query_restaurants"; RunInfo_Type := "";
     Component := components_ComponentOfTool |}.

Definition chat_model_info : callbacks_RunInfo :=
  {| RunInfo_Name := "model"; RunInfo_Type := "";
     Component := components_ComponentOfChatModel |}.

Definition content_frame (c : string) : any :=
  any_Message (Some {| Role := schema_Assistant; Content := c |}).

(** ** What the documentation's words mean on the model *)

(** The content of a frame recognised as assistant content: a message, or
    a model output holding a message, with content that is not empty. *)
Definition assistant_content (frame : any) : option string :=
  match frame with
  | any_Message (Some m)
  | any_model_CallbackOutput (Some {| Message := Some m |}) =>
      if decide (Content m = "") then None else Some (Content m)
  | _ => None
  end.

(** The line the observer gets for a forwarded content. *)
Definition assistant_line (c : string) : string :=
  schema_Assistant +:+ ": " +:+ c +:+ LF.

(** No binding on the chain is under the state key. *)
Definition never_bound (ctx : Context) : Prop :=
  Forall (λ kv : any * any, kv.1 ≠ any_toolStateKey) ctx.

#[export] Instance never_bound_dec (ctx : Context) : Decision (never_bound ctx).
Proof. unfold never_bound. apply _. Defined.

(** The dynamic type of a value is [*ToolExecutionState]. *)
Definition is_ToolExecutionState (v : any) : bool :=
  match v with
  | any_ToolExecutionState _ => true
  | _ => false
  end.

(** The lines [OnEnd] prints. *)
Definition result_line (info : callbacks_RunInfo) (response : string) : string :=
  "[TOOL] " +:+ RunInfo_Name info +:+ ": result = "
  +:+ (if decide (200 < String.length response)%nat
       then String.substring 0 200 response +:+ "..." else response) +:+ LF.

Definition succeeded_line (info : callbacks_RunInfo) : string :=
  "[TOOL] " +:+ RunInfo_Name info +:+ ": execution succeeded" +:+ LF.

Definition failed_line (info : callbacks_RunInfo) : string :=
  "[TOOL] " +:+ RunInfo_Name info +:+ ": execution failed" +:+ LF.

(** The steps of the restaurant tool all went well: the arguments decode,
    the draw is a half or more, the backend and the encoder return no
    error. *)
Definition restaurants_run_ok `{!encoding_json} (backService : fakeService) (ctx : Context)
    (args : string) (w : World) : bool :=
  match Unmarshal_QueryRestaurantsParam args {| Location := ""; Topn := 0 |} with
  | (p, None) =>
      negb (float_lt (rand_source w (rand_draws w)) (1 # 2))
      && match QueryRestaurants backService ctx
                 {| Location := Location p;
                    Topn := if decide (Topn p = 0) then 3 else Topn p |} with
         | (rests, None) => bool_decide ((Marshal_Restaurants rests).2 = None)
         | (_, Some _) => false
         end
  | (_, Some _) => false
  end.

(** The same for the dish tool, which draws nothing. *)
Definition dishes_run_ok `{!encoding_json} (backService : fakeService) (ctx : Context)
    (args : string) : bool :=
  match Unmarshal_QueryDishesParam args
          {| RestaurantID := ""; QueryDishesParam_Topn := 0 |} with
  | (p, None) =>
      match QueryDishes backService ctx
              {| RestaurantID := RestaurantID p;
                 QueryDishesParam_Topn :=
                   if decide (QueryDishesParam_Topn p = 0) then 5
                   else QueryDishesParam_Topn p |} with
      | (dishes, None) => bool_decide ((Marshal_Dishes dishes).2 = None)
      | (_, Some _) => false
      end
  | (_, Some _) => false
  end.

(** A frame that is a nil pointer of one of the two types the type switch
    of the second listing dereferences. *)
Definition nil_pointer_frame (frame : any) : bool :=
  match frame with
  | any_Message None | any_model_CallbackOutput None => true
  | _ => false
  end.

(** No frame still to come is such a nil pointer. *)
Definition no_nil_pointer_frames (items : list (any + err)) : bool :=
  forallb (λ item, match item with
                   | inl frame => negb (nil_pointer_frame frame)
                   | inr _ => true
                   end) items.

(** A message without tool calls, as a frame of the checker's stream. *)
Definition quiet_message (m : schema_Message) : option Message_with_ToolCalls + err :=
  inl (Some {| message := m; ToolCalls := [] |}).

(** * Properties *)

(** ** Lookup and binding of the execution state *)

Lemma context_Value_never_bound (ctx : Context) :
  never_bound ctx → context_Value ctx any_toolStateKey = any_nil.
Proof.
  induction 1 as [|[k v] parent Hk _ IH]; simpl; [done|].
  destruct (decide (k = any_toolStateKey)); [done | exact IH].
Qed.

Lemma GetToolState_SetToolState (ctx : Context) (state : option loc) :
  GetToolState (SetToolState ctx state) = state.
Proof.
  unfold GetToolState, SetToolState, context_WithValue. simpl.
  by repeat case_decide.
Qed.

Lemma context_Value_SetToolState_other (ctx : Context) (state : option loc) (key : any) :
  key ≠ any_toolStateKey →
  context_Value (SetToolState ctx state) key = context_Value ctx key.
Proof.
  intros Hkey. unfold SetToolState, context_WithValue. simpl.
  by case_decide.
Qed.

Lemma load_store_eq (p : loc) (v : ToolExecutionState) (w : World) :
  load p (store p v w) = v.
Proof. unfold load, store. simpl. by rewrite lookup_total_insert_eq. Qed.

Lemma load_store_ne (p q : loc) (v : ToolExecutionState) (w : World) :
  p ≠ q → load q (store p v w) = load q w.
Proof. intros Hne. unfold load, store. simpl. by rewrite lookup_total_insert_ne. Qed.

Lemma new_ToolExecutionState_fresh (init : ToolExecutionState) (w : World) :
  heap w !! (new_ToolExecutionState init w).1 = None.
Proof.
  unfold new_ToolExecutionState. simpl.
  apply not_elem_of_dom, is_fresh.
Qed.

Lemma new_ToolExecutionState_load (init : ToolExecutionState) (w : World) :
  load (new_ToolExecutionState init w).1 (new_ToolExecutionState init w).2 = init.
Proof. unfold new_ToolExecutionState, load. simpl. by rewrite lookup_total_insert_eq. Qed.

(** C6: on a scope whose chain has no binding under the state key, and on a
    scope where what [Value] finds under the state key is not a
    [*ToolExecutionState], [GetToolState] returns nil: no state with default
    fields, and (its result being a bare pointer) no error. *)
Theorem GetToolState_absent (ctx : Context) :
  never_bound ctx ∨ is_ToolExecutionState (context_Value ctx any_toolStateKey) = false →
  GetToolState ctx = None.
Proof.
  intros [Hnever | Htype]; unfold GetToolState.
  - rewrite (context_Value_never_bound ctx Hnever). by case_decide.
  - destruct (context_Value ctx any_toolStateKey); simpl in *;
      by repeat case_decide.
Qed.

Lemma GetToolState_absent_witness :
  GetToolState [(any_string "trace-id", any_int 7)] = None
  ∧ GetToolState [(any_toolStateKey, any_string "state")] = None.
Proof.
  split; apply GetToolState_absent.
  - left. apply (bool_decide_unpack _). vm_compute. exact I.
  - right. reflexivity.
Defined.

(** C5: [SetToolState] returns a derived scope on which [GetToolState]
    yields the very pointer that was bound; the original scope is the
    parent of the derived one, as it was, and every other key is looked up
    as before.  Two states allocated one after the other and bound on two
    scopes are distinct cells: each scope yields its own, and a write
    through the second leaves the first as it was. *)
Theorem SetToolState_binds_and_isolates (ctx ctxA ctxB : Context) (state : option loc)
    (key : any) (sa sb v : ToolExecutionState) (w : World) :
  GetToolState (SetToolState ctx state) = state
  ∧ tail (SetToolState ctx state) = ctx
  ∧ context_Value (SetToolState ctx state) key
    = (if decide (key = any_toolStateKey) then any_ToolExecutionState state
       else context_Value ctx key)
  ∧ (let '(pa, w1) := new_ToolExecutionState sa w in
     let '(pb, w2) := new_ToolExecutionState sb w1 in
     let scopeA := SetToolState ctxA (Some pa) in
     let scopeB := SetToolState ctxB (Some pb) in
     GetToolState scopeA = Some pa
     ∧ GetToolState scopeB = Some pb
     ∧ pa ≠ pb
     ∧ load pa w2 = sa
     ∧ load pa (store pb v w2) = sa).
Proof.
  split; [apply GetToolState_SetToolState|].
  split; [reflexivity|].
  split.
  { destruct (decide (key = any_toolStateKey)) as [->|Hkey];
      [|by apply context_Value_SetToolState_other].
    reflexivity. }
  destruct (new_ToolExecutionState sa w) as [pa w1] eqn:Ha.
  destruct (new_ToolExecutionState sb w1) as [pb w2] eqn:Hb.
  assert (Hfresh : heap w1 !! pb = None).
  { pose proof (new_ToolExecutionState_fresh sb w1) as Hf. by rewrite Hb in Hf. }
  assert (Hpa : heap w1 !! pa = Some sa).
  { unfold new_ToolExecutionState in Ha. injection Ha as <- <-. simpl.
    apply lookup_insert_eq. }
  assert (Hne : pb ≠ pa) by congruence.
  assert (Hload : load pa w2 = sa).
  { unfold new_ToolExecutionState in Hb. injection Hb as Hpb <-.
    unfold load. simpl. rewrite Hpb, lookup_total_insert_ne by done.
    by rewrite lookup_total_alt, Hpa. }
  repeat split; try apply GetToolState_SetToolState; try congruence.
  by rewrite load_store_ne.
Qed.

(** ** The [safeTool] decorator *)

Section SafeToolProperties.
Context {T : Type} `{!tool_InvokableTool T}.
Implicit Types (s : safeTool T) (ctx : Context) (args : string)
  (opts : list tool_Option) (w : World).

Lemma safeTool_InvokableRun_error_nil s ctx args opts w :
  (InvokableRun s ctx args opts w).1.2 = None.
Proof.
  simpl. unfold safeTool_InvokableRun.
  destruct (InvokableRun (InvokableTool s) ctx args opts w) as [[out [e|]] w1]; done.
Qed.

(** C1: when the wrapped tool returns an error, [safeTool.InvokableRun]
    returns the error's message as its payload together with a nil
    error. *)
Theorem safeTool_failure_is_payload s ctx args opts w (out : string) (e : err) (w1 : World) :
  InvokableRun (InvokableTool s) ctx args opts w = ((out, Some e), w1) →
  (InvokableRun s ctx args opts w).1 = (Error e, None).
Proof.
  intros Hrun. simpl. unfold safeTool_InvokableRun. by rewrite Hrun.
Qed.

(** C2: after [safeTool.InvokableRun] on a scope with a state bound, the
    state's [Success] is [true] exactly when the wrapped tool returned a nil
    error; with no state bound the world is the one the wrapped tool left,
    nothing written.  Either way the call returns with a nil error. *)
Theorem safeTool_records_outcome s ctx args opts w :
  let '((out, e), w1) := InvokableRun (InvokableTool s) ctx args opts w in
  let '(res, w2) := InvokableRun s ctx args opts w in
  res.2 = None
  ∧ match GetToolState ctx with
    | Some p => load p w2 = {| Success := bool_decide (e = None) |}
    | None => w2 = w1
    end.
Proof.
  simpl. unfold safeTool_InvokableRun.
  destruct (InvokableRun (InvokableTool s) ctx args opts w) as [[out e] w1].
  destruct (GetToolState ctx) as [p|], e as [e|]; simpl;
    rewrite ?load_store_eq; done.
Qed.

(** A write of the outcome touches the bound cell only. *)
Lemma safeTool_frame s ctx args opts w (p q : loc) :
  GetToolState ctx = Some p → q ≠ p →
  load q (InvokableRun s ctx args opts w).2
  = load q (InvokableRun (InvokableTool s) ctx args opts w).2.
Proof.
  intros Hp Hq. simpl. unfold safeTool_InvokableRun.
  destruct (InvokableRun (InvokableTool s) ctx args opts w) as [[out e] w1].
  rewrite Hp. destruct e; simpl; by rewrite load_store_ne.
Qed.

End SafeToolProperties.

Lemma safeTool_failure_is_payload_witness :
  (InvokableRun {| InvokableTool := {| canned := ("", Some (errorString "unavailable")) |} |}
     context_Background "{}" [] (world_with_draw 0)).1
  = ("unavailable", None).
Proof.
  apply (safeTool_failure_is_payload _ _ _ _ _ "" (errorString "unavailable")
           (world_with_draw 0)).
  reflexivity.
Defined.

(** ** The query tools *)

Section QueryToolProperties.
Context `{!encoding_json}.
Implicit Types (ctx : Context) (args : string) (opts : list tool_Option) (w : World).

(** Arguments the decoder rejects: the tool returns the decoder's error
    itself, with no payload, and leaves the world as it was. *)
Lemma ToolQueryRestaurants_decode_failure (t : ToolQueryRestaurants) ctx args opts w
    (p : QueryRestaurantsParam) (derr : err) :
  Unmarshal_QueryRestaurantsParam args {| Location := ""; Topn := 0 |} = (p, Some derr) →
  InvokableRun t ctx args opts w = (("", Some derr), w).
Proof.
  intros Hdec. simpl. unfold ToolQueryRestaurants_InvokableRun. by rewrite Hdec.
Qed.

Lemma ToolQueryDishes_decode_failure (t : ToolQueryDishes) ctx args opts w
    (p : QueryDishesParam) (derr : err) :
  Unmarshal_QueryDishesParam args {| RestaurantID := ""; QueryDishesParam_Topn := 0 |}
    = (p, Some derr) →
  InvokableRun t ctx args opts w = (("", Some derr), w).
Proof.
  intros Hdec. simpl. unfold ToolQueryDishes_InvokableRun. by rewrite Hdec.
Qed.

(** C3, as the code has it: on arguments that the decoder rejects, the
    restaurant tool itself returns the decoder's error, not nil, with an
    empty payload and the world untouched; [safeTool.InvokableRun] around it
    treats that as any failure of the wrapped tool: it returns the error's
    message as payload with a nil error, and writes [Success = false] to the
    state bound on the scope, if there is one. *)
Theorem decode_failure_is_downgraded (restService : fakeService) ctx args opts w
    (p : QueryRestaurantsParam) (derr : err) :
  Unmarshal_QueryRestaurantsParam args {| Location := ""; Topn := 0 |} = (p, Some derr) →
  InvokableRun (InvokableTool (GetRestaurantTool restService)) ctx args opts w
    = (("", Some derr), w)
  ∧ InvokableRun (GetRestaurantTool restService) ctx args opts w
    = ((Error derr, None),
       match GetToolState ctx with
       | Some state => store state {| Success := false |} w
       | None => w
       end).
Proof.
  intros Hdec.
  pose proof (ToolQueryRestaurants_decode_failure
                (InvokableTool (GetRestaurantTool restService)) ctx args opts w p derr Hdec)
    as Hinner.
  split; [exact Hinner|].
  change (safeTool_InvokableRun (GetRestaurantTool restService) ctx args opts w = 
    ((Error derr, None),
       match GetToolState ctx with
       | Some state => store state {| Success := false |} w
       | None => w
       end)).
  unfold safeTool_InvokableRun. rewrite Hinner.
  by destruct (GetToolState ctx).
Qed.

(** A state that is still [false], as [OnStart] made it, reads the same
    after the write. *)
Lemma store_false_default (state : loc) w :
  heap w !! state = Some {| Success := false |} →
  store state {| Success := false |} w = w.
Proof.
  intros Hcell. destruct w. unfold store, set_heap. simpl in *.
  f_equal. by apply insert_id.
Qed.

(** C10: when the arguments decode, the restaurant tool calls the backend
    (if the simulated failure does not strike first) with [Topn] 3 where the
    decoded [Topn] is zero, and the dish tool calls it with [Topn] 5 there;
    a decoded [Topn] other than zero is what the backend gets.  When the
    arguments do not decode, the backend is not called.  This is stated
    twice over: of the calls that are logged, and of what the tools return,
    which for every backend is made from the backend's answer to the
    parameter with the default filled in. *)
Theorem topn_defaults (tr : ToolQueryRestaurants) (td : ToolQueryDishes) ctx args opts w :
  backend_calls (InvokableRun tr ctx args opts w).2
  = backend_calls w ++
    match Unmarshal_QueryRestaurantsParam args {| Location := ""; Topn := 0 |} with
    | (p, None) =>
        if float_lt (rand_source w (rand_draws w)) (1 # 2) then []
        else [CallQueryRestaurants
                {| Location := Location p;
                   Topn := if decide (Topn p = 0) then 3 else Topn p |}]
    | (_, Some _) => []
    end
  ∧ backend_calls (InvokableRun td ctx args opts w).2
  = backend_calls w ++
    match Unmarshal_QueryDishesParam args
            {| RestaurantID := ""; QueryDishesParam_Topn := 0 |} with
    | (p, None) =>
        [CallQueryDishes
           {| RestaurantID := RestaurantID p;
              QueryDishesParam_Topn :=
                if decide (QueryDishesParam_Topn p = 0) then 5
                else QueryDishesParam_Topn p |}]
    | (_, Some _) => []
    end
  ∧ (InvokableRun tr ctx args opts w).1
  = match Unmarshal_QueryRestaurantsParam args {| Location := ""; Topn := 0 |} with
    | (p, None) =>
        if float_lt (rand_source w (rand_draws w)) (1 # 2)
        then ("", Some (errorString (Marshal_map errorMsg).1))
        else
          match QueryRestaurants (ToolQueryRestaurants_backService tr) ctx
                  {| Location := Location p;
                     Topn := if decide (Topn p = 0) then 3 else Topn p |} with
          | (rests, None) =>
              match Marshal_Restaurants rests with
              | (res, None) => (res, None)
              | (_, Some e) => ("", Some e)
              end
          | (_, Some e) => ("", Some e)
          end
    | (_, Some derr) => ("", Some derr)
    end
  ∧ (InvokableRun td ctx args opts w).1
  = match Unmarshal_QueryDishesParam args
            {| RestaurantID := ""; QueryDishesParam_Topn := 0 |} with
    | (p, None) =>
        match QueryDishes (ToolQueryDishes_backService td) ctx
                {| RestaurantID := RestaurantID p;
                   QueryDishesParam_Topn :=
                     if decide (QueryDishesParam_Topn p = 0) then 5
                     else QueryDishesParam_Topn p |} with
        | (dishes, None) =>
            match Marshal_Dishes dishes with
            | (res, None) => (res, None)
            | (_, Some e) => ("", Some e)
            end
        | (_, Some e) => ("", Some e)
        end
    | (_, Some derr) => ("", Some derr)
    end.
Proof.
  split; [|split; [|split]]; simpl.
  - unfold ToolQueryRestaurants_InvokableRun.
    destruct (Unmarshal_QueryRestaurantsParam _ _) as [[loc0 topn] [derr|]];
      simpl; [by rewrite app_nil_r|].
    destruct (float_lt _ _); simpl.
    + destruct (Marshal_map errorMsg). simpl. by rewrite app_nil_r.
    + destruct (QueryRestaurants _ _ _) as [rests [e|]]; simpl;
        [|destruct (Marshal_Restaurants rests) as [res [e|]]; simpl];
        by case_decide.
  - unfold ToolQueryDishes_InvokableRun.
    destruct (Unmarshal_QueryDishesParam _ _) as [[id topn] [derr|]];
      simpl; [by rewrite app_nil_r|].
    destruct (QueryDishes _ _ _) as [dishes [e|]]; simpl;
      [|destruct (Marshal_Dishes dishes) as [res [e|]]; simpl];
      by case_decide.
  - unfold ToolQueryRestaurants_InvokableRun.
    destruct (Unmarshal_QueryRestaurantsParam _ _) as [[loc0 topn] [derr|]];
      simpl; [done|].
    destruct (float_lt _ _); simpl; [by destruct (Marshal_map errorMsg)|].
    case_decide; simpl;
      (destruct (QueryRestaurants _ _ _) as [rests [e|]]; simpl; [done|];
       by destruct (Marshal_Restaurants rests) as [res [e|]]).
  - unfold ToolQueryDishes_InvokableRun.
    destruct (Unmarshal_QueryDishesParam _ _) as [[id topn] [derr|]];
      simpl; [done|].
    case_decide; simpl;
      (destruct (QueryDishes _ _ _) as [dishes [e|]]; simpl; [done|];
       by destruct (Marshal_Dishes dishes) as [res [e|]]).
Qed.

End QueryToolProperties.

(** ** The stream drain *)

Section Drain.
Implicit Types (frame : any) (frames : list any) (e : err) (rest : list (any + err))
  (c : nat) (w : World) (output : StreamReader).

(** The loop, turn by turn. *)
Lemma drain_loop_end c w :
  drain_loop {| pending := []; closed := c |} w = ({| pending := []; closed := c |}, w).
Proof. rewrite drain_loop_equation_1. reflexivity. Qed.

Lemma drain_loop_frame frame rest c w :
  drain_loop {| pending := inl frame :: rest; closed := c |} w
  = drain_loop {| pending := rest; closed := c |} (forward_frame frame w).
Proof. rewrite drain_loop_equation_1. reflexivity. Qed.

Lemma drain_loop_error e rest c w :
  drain_loop {| pending := inr e :: rest; closed := c |} w
  = if errors_Is e io_EOF then ({| pending := rest; closed := c |}, w)
    else ({| pending := rest; closed := c |},
          fmt_Printf ("[ERROR] failed to recv from stream: " +:+ Error e +:+ LF) w).
Proof. rewrite drain_loop_equation_1. reflexivity. Qed.

(** The loop does not call [Close]. *)
Lemma drain_loop_closed output w :
  closed (drain_loop output w).1 = closed output.
Proof.
  destruct output as [items c]. simpl.
  revert w. induction items as [|[frame|e] rest IH]; intros w.
  - by rewrite drain_loop_end.
  - rewrite drain_loop_frame. apply IH.
  - rewrite drain_loop_error. by destruct (errors_Is e io_EOF).
Qed.

(** The loop writes nothing but standard output. *)
Lemma forward_frame_heap frame w : heap (forward_frame frame w) = heap w.
Proof.
  unfold forward_frame.
  destruct (model_ConvCallbackOutput frame) as [[[msg|]]|]; simpl; try done.
  by case_decide.
Qed.

(** What one frame adds to standard output is its line, if it is
    assistant content. *)
Lemma forward_frame_assistant_content frame w :
  forward_frame frame w
  = match assistant_content frame with
    | Some content => fmt_Printf (assistant_line content) w
    | None => w
    end.
Proof.
  unfold forward_frame, assistant_content, assistant_line.
  destruct frame as [| | | | |[m|]|[[[m|]]|]| |]; simpl; try done;
    by repeat case_decide.
Qed.

Lemma forward_frames_stdout frames w :
  stdout (foldl (λ w frame, forward_frame frame w) w frames)
  = stdout w ++ (assistant_line <$> omap assistant_content frames).
Proof.
  revert w. induction frames as [|frame frames IH]; intros w; simpl.
  - by rewrite app_nil_r.
  - rewrite IH, forward_frame_assistant_content.
    destruct (assistant_content frame); simpl; [|done].
    by rewrite <- app_assoc.
Qed.

(** Frames up to the end of the sequence: all are handled, in order. *)
Lemma drain_loop_frames frames c w :
  drain_loop {| pending := inl <$> frames; closed := c |} w
  = ({| pending := []; closed := c |}, foldl (λ w frame, forward_frame frame w) w frames).
Proof.
  revert w. induction frames as [|frame frames IH]; intros w; simpl.
  - apply drain_loop_end.
  - rewrite drain_loop_frame. apply IH.
Qed.

(** Frames up to an error: the frames before it are handled, the error
    ends the loop, what follows it is not received. *)
Lemma drain_loop_frames_error frames e rest c w :
  drain_loop {| pending := (inl <$> frames) ++ inr e :: rest; closed := c |} w
  = let w' := foldl (λ w frame, forward_frame frame w) w frames in
    if errors_Is e io_EOF then ({| pending := rest; closed := c |}, w')
    else ({| pending := rest; closed := c |},
          fmt_Printf ("[ERROR] failed to recv from stream: " +:+ Error e +:+ LF) w').
Proof.
  revert w. induction frames as [|frame frames IH]; intros w; simpl.
  - apply drain_loop_error.
  - rewrite drain_loop_frame. apply IH.
Qed.

(** C4: the goroutine that drains the stream calls [Close] on it once,
    whatever the stream holds (frames to the end, an error in between);
    and the handler together with the goroutines it starts calls [Close]
    once for each component kind. *)
Theorem drain_closes_exactly_once (cb : LoggerCallback) (ctx : Context)
    (info : callbacks_RunInfo) output w :
  closed (OnEndWithStreamOutput_func1 output w).1 = S (closed output)
  ∧ (let '(_, after_handler, started) := OnEndWithStreamOutput cb ctx info output w in
     closed (run_goroutines started after_handler).1 = S (closed output)).
Proof.
  assert (Hfunc : ∀ out w0, closed (OnEndWithStreamOutput_func1 out w0).1 = S (closed out)).
  { intros out w0. unfold OnEndWithStreamOutput_func1.
    pose proof (drain_loop_closed out w0) as Hc.
    destruct (drain_loop out w0) as [out' w']. simpl in *. by rewrite Hc. }
  split; [apply Hfunc|].
  unfold OnEndWithStreamOutput. case_decide; simpl; [apply Hfunc | done].
Qed.

(** C7: draining a finite sequence of frames forwards to standard output
    the lines of exactly the frames that are assistant content with content
    that is not empty, in the order of the stream, and nothing for the
    others; for the frames with contents A, empty and B these are the lines
    of A and B. *)
Theorem drain_forwards_assistant_content frames c w :
  stdout (OnEndWithStreamOutput_func1 {| pending := inl <$> frames; closed := c |} w).2
  = stdout w ++ (assistant_line <$> omap assistant_content frames)
  ∧ stdout (OnEndWithStreamOutput_func1
              {| pending := [inl (content_frame "A"); inl (content_frame "");
                             inl (content_frame "B")];
                 closed := c |} w).2
    = stdout w ++ [assistant_line "A"; assistant_line "B"].
Proof.
  assert (Hgen : ∀ fs, stdout (OnEndWithStreamOutput_func1
                                 {| pending := inl <$> fs; closed := c |} w).2
                       = stdout w ++ (assistant_line <$> omap assistant_content fs)).
  { intros fs. unfold OnEndWithStreamOutput_func1.
    rewrite drain_loop_frames. simpl. apply forward_frames_stdout. }
  split; [apply Hgen|].
  apply (Hgen [content_frame "A"; content_frame ""; content_frame "B"]).
Qed.

(** C9: [OnEndWithStreamOutput] starts the draining goroutine for the chat
    model component and itself leaves the stream alone; for any other
    component it starts none, closes the stream and receives nothing from
    it, printing nothing.  It returns the context it was given in both
    cases.  In the goroutine an error that is not [io.EOF] ends the drain:
    the frames before it are forwarded, the error is printed, nothing after
    it is received, the stream is closed, and the goroutine returns. *)
Theorem only_chat_model_drains (cb : LoggerCallback) (ctx : Context)
    (info : callbacks_RunInfo) output frames e rest c w :
  (let '(ctx', (output', w'), started) := OnEndWithStreamOutput cb ctx info output w in
   ctx' = ctx ∧ w' = w
   ∧ if decide (Component info = components_ComponentOfChatModel)
     then started = [OnEndWithStreamOutput_func1] ∧ output' = output
     else started = [] ∧ pending output' = pending output
          ∧ closed output' = S (closed output))
  ∧ OnEndWithStreamOutput_func1
      {| pending := (inl <$> frames) ++ inr e :: rest; closed := c |} w
    = ({| pending := rest; closed := S c |},
       let w' := foldl (λ w frame, forward_frame frame w) w frames in
       if errors_Is e io_EOF then w'
       else fmt_Printf ("[ERROR] failed to recv from stream: " +:+ Error e +:+ LF) w').
Proof.
  split.
  - unfold OnEndWithStreamOutput. by case_decide.
  - unfold OnEndWithStreamOutput_func1. rewrite drain_loop_frames_error. simpl.
    by destruct (errors_Is e io_EOF).
Qed.

End Drain.

(** ** The [OnEnd] hook *)

(** C8, as the code has it: for the tool component, when the output
    converts to a tool output, [OnEnd] prints the result line and then, when
    a state is bound on the scope, one outcome line, "execution succeeded"
    exactly when the state's [Success] is [true] and "execution failed"
    otherwise; when no state is bound it prints no outcome line at all.
    When the output does not convert, it prints nothing.  In each case it
    returns the context it was given and writes to no state. *)
Theorem OnEnd_reports_bound_state (cb : LoggerCallback) (ctx : Context)
    (info : callbacks_RunInfo) (output : any) (w : World) :
  Component info = components_ComponentOfTool →
  (OnEnd cb ctx info output w).1 = ctx
  ∧ heap (OnEnd cb ctx info output w).2 = heap w
  ∧ stdout (OnEnd cb ctx info output w).2
    = stdout w ++
      match tool_ConvCallbackOutput output with
      | Some tco =>
          result_line info (Response tco) ::
          match GetToolState ctx with
          | Some state =>
              [if Success (load state w) then succeeded_line info else failed_line info]
          | None => []
          end
      | None => []
      end.
Proof.
  intros Hkind. unfold OnEnd. rewrite decide_True by done.
  destruct (tool_ConvCallbackOutput output) as [tco|]; simpl;
    [|by rewrite app_nil_r].
  destruct (GetToolState ctx) as [state|]; simpl.
  - change (load state (fmt_Printf _ w)) with (load state w).
    destruct (Success (load state w)); simpl;
      by rewrite <- app_assoc.
  - done.
Qed.

(** For another component, or an output that does not convert, [OnEnd]
    does nothing. *)
Lemma OnEnd_skips (cb : LoggerCallback) (ctx : Context) (info : callbacks_RunInfo)
    (output : any) (w : World) :
  Component info ≠ components_ComponentOfTool ∨ tool_ConvCallbackOutput output = None →
  OnEnd cb ctx info output w = (ctx, w).
Proof.
  intros [Hkind | Hconv]; unfold OnEnd.
  - by rewrite decide_False.
  - case_decide; [by rewrite Hconv | done].
Qed.

(** [OnStart] for a tool call binds a state that reads [false]. *)
Lemma OnStart_binds_fresh_state (cb : LoggerCallback) (ctx : Context)
    (info : callbacks_RunInfo) (input : any) (w : World) (tci : tool_CallbackInput) :
  Component info = components_ComponentOfTool →
  tool_ConvCallbackInput input = Some tci →
  ∃ state, GetToolState (OnStart cb ctx info input w).1 = Some state
           ∧ heap w !! state = None
           ∧ load state (OnStart cb ctx info input w).2 = {| Success := false |}.
Proof.
  intros Hkind Hconv. unfold OnStart. rewrite decide_True by done. rewrite Hconv.
  set (w1 := fmt_Printf _ w).
  exists (new_ToolExecutionState {| Success := false |} w1).1.
  destruct (new_ToolExecutionState {| Success := false |} w1) as [state w2] eqn:Hnew.
  simpl. split; [apply GetToolState_SetToolState|].
  split.
  - pose proof (new_ToolExecutionState_fresh {| Success := false |} w1) as Hf.
    by rewrite Hnew in Hf.
  - pose proof (new_ToolExecutionState_load {| Success := false |} w1) as Hl.
    by rewrite Hnew in Hl.
Qed.

(** ** The properties on concrete runs *)

Section Scenarios.
#[local] Existing Instance stub_json.

Lemma OnEnd_reports_bound_state_witness :
  (let ctx := context_Background in
   let w := world_with_draw 0 in
   stdout (OnEnd cb ctx tool_info (any_string "42 items") w).2
   = stdout w ++ [result_line tool_info "42 items"])
  ∧ (let ctx := SetToolState context_Background (Some 1%positive) in
     let w := store 1%positive {| Success := true |} (world_with_draw 0) in
     stdout (OnEnd cb ctx tool_info (any_string "42 items") w).2
     = stdout w ++ [result_line tool_info "42 items"; succeeded_line tool_info])
  ∧ (let ctx := SetToolState context_Background (Some 1%positive) in
     let w := store 1%positive {| Success := true |} (world_with_draw 0) in
     stdout (OnEnd cb ctx tool_info (any_int 0) w).2 = stdout w ++ []).
Proof.
  split; [|split]; intros ctx w.
  - apply (OnEnd_reports_bound_state cb ctx tool_info (any_string "42 items") w);
      reflexivity.
  - apply (OnEnd_reports_bound_state cb ctx tool_info (any_string "42 items") w);
      reflexivity.
  - apply (OnEnd_reports_bound_state cb ctx tool_info (any_int 0) w);
      reflexivity.
Defined.

(** C8 as stated fails: with a state bound and [Success] true, a tool
    [OnEnd] whose output does not convert reports no outcome; and with no
    state bound nothing about the outcome is printed, the result line
    only. *)
Lemma OnEnd_outcome_counterexample :
  (let ctx := SetToolState context_Background (Some 1%positive) in
   let w := store 1%positive {| Success := true |} (world_with_draw 0) in
   Component tool_info = components_ComponentOfTool
   ∧ GetToolState ctx = Some 1%positive
   ∧ Success (load 1%positive w) = true
   ∧ stdout (OnEnd cb ctx tool_info (any_int 0) w).2 = [])
  ∧ (GetToolState context_Background = None
     ∧ stdout (OnEnd cb context_Background tool_info (any_string "42 items")
                 (world_with_draw 0)).2
       = [result_line tool_info "42 items"]).
Proof. vm_compute. repeat split. Qed.

Lemma decode_failure_is_downgraded_witness :
  let ctx := SetToolState context_Background (Some 1%positive) in
  let w := store 1%positive {| Success := false |} (world_with_draw 0) in
  InvokableRun (InvokableTool (GetRestaurantTool stub_service)) ctx "{not json" [] w
    = (("", Some decode_error), w)
  ∧ InvokableRun (GetRestaurantTool stub_service) ctx "{not json" [] w
    = ((Error decode_error, None),
       match GetToolState ctx with
       | Some state => store state {| Success := false |} w
       | None => w
       end).
Proof.
  intros ctx w.
  apply (decode_failure_is_downgraded stub_service ctx "{not json" [] w
           {| Location := ""; Topn := 0 |} decode_error).
  reflexivity.
Defined.

(** C3 as stated fails: the arguments are rejected by the decoder, and the
    caller of [safeTool.InvokableRun] gets the decoder's message as payload
    and a nil error. *)
Lemma decode_failure_not_propagated_counterexample :
  let '(ctx, w) := OnStart cb context_Background tool_info (any_string "{not json")
                     (world_with_draw 0) in
  (Unmarshal_QueryRestaurantsParam "{not json" {| Location := ""; Topn := 0 |}).2
    = Some decode_error
  ∧ (InvokableRun (GetRestaurantTool stub_service) ctx "{not json" [] w).1
    = (Error decode_error, None).
Proof. vm_compute. repeat split. Qed.

(** A tool that returns a payload: the payload is handed on, the state
    reads [true], and [OnEnd] reports success. *)
Example scenario_success :
  let tool := {| InvokableTool := {| canned := ("42 items", None) |} |} in
  let '(ctx, w) := OnStart cb context_Background tool_info (any_string "{}")
                     (world_with_draw 0) in
  let '(res, w) := InvokableRun tool ctx "{}" [] w in
  let '(_, w') := OnEnd cb ctx tool_info (any_string res.1) w in
  res = ("42 items", None)
  ∧ ((λ state, load state w) <$> GetToolState ctx) = Some {| Success := true |}
  ∧ stdout w' = ["[TOOL] query_restaurants: {}" +:+ LF;
                 "[TOOL] query_restaurants: result = 42 items" +:+ LF;
                 "[TOOL] query_restaurants: execution succeeded" +:+ LF].
Proof. vm_compute. repeat split. Qed.

(** A tool that fails: its message is the payload, the state reads
    [false], and [OnEnd] reports the failure. *)
Example scenario_failure :
  let tool := {| InvokableTool := {| canned := ("", Some (errorString "unavailable")) |} |} in
  let '(ctx, w) := OnStart cb context_Background tool_info (any_string "{}")
                     (world_with_draw 0) in
  let '(res, w) := InvokableRun tool ctx "{}" [] w in
  let '(_, w') := OnEnd cb ctx tool_info (any_string res.1) w in
  res = ("unavailable", None)
  ∧ ((λ state, load state w) <$> GetToolState ctx) = Some {| Success := false |}
  ∧ stdout w' = ["[TOOL] query_restaurants: {}" +:+ LF;
                 "[TOOL] query_restaurants: result = unavailable" +:+ LF;
                 "[TOOL] query_restaurants: execution failed" +:+ LF].
Proof. vm_compute. repeat split. Qed.

(** Two tool calls, each with the state its own [OnStart] made: the
    failure of the second does not show in the state of the first. *)
Example scenario_two_calls :
  let good := {| InvokableTool := {| canned := ("42 items", None) |} |} in
  let bad := {| InvokableTool := {| canned := ("", Some (errorString "unavailable")) |} |} in
  let '(ctxA, w) := OnStart cb context_Background tool_info (any_string "{}")
                      (world_with_draw 0) in
  let '(ctxB, w) := OnStart cb context_Background tool_info (any_string "{}") w in
  let '(_, w) := InvokableRun good ctxA "{}" [] w in
  let '(_, w) := InvokableRun bad ctxB "{}" [] w in
  GetToolState ctxA ≠ GetToolState ctxB
  ∧ (λ state, load state w) <$> GetToolState ctxA = Some {| Success := true |}
  ∧ (λ state, load state w) <$> GetToolState ctxB = Some {| Success := false |}.
Proof. vm_compute. repeat split. discriminate. Qed.

(** The restaurant tool behind [safeTool], with no [topn] in the
    arguments: when the draw is a half or more the backend is asked for
    three entries, when it is less the backend is not called and the
    simulated failure is the payload. *)
Example scenario_restaurants_default :
  backend_calls (InvokableRun (GetRestaurantTool stub_service) context_Background "{}" []
                   (world_with_draw (3 # 4))).2
  = [CallQueryRestaurants {| Location := ""; Topn := 3 |}]
  ∧ InvokableRun (GetRestaurantTool stub_service) context_Background "{}" []
      (world_with_draw (1 # 4))
    = (("{...}", None),
       {| heap := ∅; stdout := []; rand_source := λ _, 1 # 4; rand_draws := 1;
          backend_calls := [] |})
  ∧ backend_calls (InvokableRun (GetRestaurantTool stub_service) context_Background
                     args_topn7 [] (world_with_draw (3 # 4))).2
    = [CallQueryRestaurants {| Location := ""; Topn := 7 |}]
  ∧ backend_calls (InvokableRun (GetDishTool stub_service) context_Background "{}" []
                     (world_with_draw 0)).2
    = [CallQueryDishes {| RestaurantID := ""; QueryDishesParam_Topn := 5 |}].
Proof. vm_compute. repeat split. Qed.

(** The same against a backend that answers with as many entries as it is
    asked for: three restaurants and five dishes by default, seven of each
    when seven are asked for. *)
Example scenario_topn_reaches_backend :
  (InvokableRun (GetRestaurantTool counting_service) context_Background "{}" []
     (world_with_draw (3 # 4))).1
  = ("[r,r,r]", None)
  ∧ (InvokableRun (GetDishTool counting_service) context_Background "{}" []
       (world_with_draw 0)).1
    = ("[d,d,d,d,d]", None)
  ∧ (InvokableRun (GetRestaurantTool counting_service) context_Background args_topn7 []
       (world_with_draw (3 # 4))).1
    = ("[r,r,r,r,r,r,r]", None)
  ∧ (InvokableRun (GetDishTool counting_service) context_Background args_topn7 []
       (world_with_draw 0)).1
    = ("[d,d,d,d,d,d,d]", None).
Proof. vm_compute. repeat split. Qed.

(** The drain on each way out of its loop: the end of the stream, an error
    in the stream, and a wrapped [io.EOF]. *)
Example scenario_drain :
  let sr items := {| pending := items; closed := 0 |} in
  let w := world_with_draw 0 in
  (let '(sr', w') := OnEndWithStreamOutput_func1
                       (sr [inl (content_frame "A"); inl (any_int 3)]) w in
   sr' = {| pending := []; closed := 1 |} ∧ stdout w' = ["assistant: A" +:+ LF])
  ∧ (let '(sr', w') := OnEndWithStreamOutput_func1
                         (sr [inl (content_frame "A"); inr (errorString "reset");
                              inl (content_frame "B")]) w in
     sr' = {| pending := [inl (content_frame "B")]; closed := 1 |}
     ∧ stdout w' = ["assistant: A" +:+ LF;
                    "[ERROR] failed to recv from stream: reset" +:+ LF])
  ∧ (let '(sr', w') := OnEndWithStreamOutput_func1
                         (sr [inr (wrapError "read: EOF" io_EOF)]) w in
     sr' = {| pending := []; closed := 1 |} ∧ stdout w' = []).
Proof. vm_compute. repeat split. Qed.

(** The handler itself: for the chat model it starts the drain and leaves
    the stream to it, for a tool it closes the stream and reads nothing. *)
Example scenario_stream_handler :
  let sr := {| pending := [inl (content_frame "A")]; closed := 0 |} in
  let w := world_with_draw 0 in
  (let '(_, after_handler, started) := OnEndWithStreamOutput cb context_Background
                                         chat_model_info sr w in
   after_handler = (sr, w)
   ∧ length started = 1%nat
   ∧ (run_goroutines started after_handler).1 = {| pending := []; closed := 1 |}
   ∧ stdout (run_goroutines started after_handler).2 = ["assistant: A" +:+ LF])
  ∧ (let '(_, after_handler, started) := OnEndWithStreamOutput cb context_Background
                                           tool_info sr w in
     after_handler = ({| pending := [inl (content_frame "A")]; closed := 1 |}, w)
     ∧ length started = 0%nat).
Proof. vm_compute. repeat split. Qed.

End Scenarios.

(** * Further properties of the code *)

(** ** The query tools, step by step *)

Section QueryToolSteps.
Context `{!encoding_json}.
Implicit Types (ctx : Context) (args : string) (opts : list tool_Option) (w : World)
  (tr : ToolQueryRestaurants) (td : ToolQueryDishes).

(** X1: a query tool never returns a payload together with an error: the
    payload is empty or the error is nil. *)
Theorem query_tools_payload_or_error tr td ctx args opts w :
  ((ToolQueryRestaurants_InvokableRun tr ctx args opts w).1.1 = "" ∨ (ToolQueryRestaurants_InvokableRun tr ctx args opts w).1.2 = None)
  ∧ ((ToolQueryDishes_InvokableRun td ctx args opts w).1.1 = "" ∨ (ToolQueryDishes_InvokableRun td ctx args opts w).1.2 = None).
Proof.
  split; simpl.
  - unfold ToolQueryRestaurants_InvokableRun.
    destruct (Unmarshal_QueryRestaurantsParam _ _) as [p [derr|]]; simpl; [by left|].
    destruct (float_lt _ _); [destruct (Marshal_map errorMsg); by left|].
    destruct (QueryRestaurants _ _ _) as [rests [e|]]; simpl; [by left|].
    destruct (Marshal_Restaurants rests) as [res [e|]]; simpl; [by left | by right].
  - unfold ToolQueryDishes_InvokableRun.
    destruct (Unmarshal_QueryDishesParam _ _) as [p [derr|]]; simpl; [by left|].
    destruct (QueryDishes _ _ _) as [dishes [e|]]; simpl; [by left|].
    destruct (Marshal_Dishes dishes) as [res [e|]]; simpl; [by left | by right].
Qed.

(** X2: the query tools write to no state and print nothing.  The dish
    tool draws no random number; the restaurant tool draws one when the
    arguments decode and none when they do not. *)
Theorem query_tools_frame tr td ctx args opts w :
  heap (ToolQueryRestaurants_InvokableRun tr ctx args opts w).2 = heap w
  ∧ stdout (ToolQueryRestaurants_InvokableRun tr ctx args opts w).2 = stdout w
  ∧ rand_draws (ToolQueryRestaurants_InvokableRun tr ctx args opts w).2
    = match (Unmarshal_QueryRestaurantsParam args {| Location := ""; Topn := 0 |}).2 with
      | Some _ => rand_draws w
      | None => S (rand_draws w)
      end
  ∧ heap (ToolQueryDishes_InvokableRun td ctx args opts w).2 = heap w
  ∧ stdout (ToolQueryDishes_InvokableRun td ctx args opts w).2 = stdout w
  ∧ rand_draws (ToolQueryDishes_InvokableRun td ctx args opts w).2 = rand_draws w.
Proof.
  repeat split; simpl.
  1-3: unfold ToolQueryRestaurants_InvokableRun;
    destruct (Unmarshal_QueryRestaurantsParam _ _) as [p [derr|]]; simpl; [done|];
    destruct (float_lt _ _); [by destruct (Marshal_map errorMsg)|];
    destruct (QueryRestaurants _ _ _) as [rests [e|]]; simpl; [done|];
    by destruct (Marshal_Restaurants rests) as [res [e|]].
  1-3: unfold ToolQueryDishes_InvokableRun;
    destruct (Unmarshal_QueryDishesParam _ _) as [p [derr|]]; simpl; [done|];
    destruct (QueryDishes _ _ _) as [dishes [e|]]; simpl; [done|];
    by destruct (Marshal_Dishes dishes) as [res [e|]].
Qed.

(** X3: when the arguments decode and the draw is below a half, the
    restaurant tool fails with the encoded [errorMsg] as its error, whatever
    the backend holds, and does not call the backend; behind [safeTool] that
    text is the payload, with a nil error. *)
Theorem simulated_failure (restService : fakeService) ctx args opts w
    (p : QueryRestaurantsParam) :
  Unmarshal_QueryRestaurantsParam args {| Location := ""; Topn := 0 |} = (p, None) →
  float_lt (rand_source w (rand_draws w)) (1 # 2) = true →
  (InvokableRun (InvokableTool (GetRestaurantTool restService)) ctx args opts w).1
    = ("", Some (errorString (Marshal_map errorMsg).1))
  ∧ (InvokableRun (GetRestaurantTool restService) ctx args opts w).1
    = ((Marshal_map errorMsg).1, None)
  ∧ backend_calls (InvokableRun (GetRestaurantTool restService) ctx args opts w).2
    = backend_calls w.
Proof.
  intros Hdec Hdraw.
  assert (Hinner : InvokableRun (InvokableTool (GetRestaurantTool restService)) ctx args opts w
                   = (("", Some (errorString (Marshal_map errorMsg).1)), (rand_Float32 w).2)).
  { simpl. unfold ToolQueryRestaurants_InvokableRun. rewrite Hdec. simpl.
    rewrite Hdraw. by destruct (Marshal_map errorMsg). }
  split; [by rewrite Hinner|].
  change (InvokableRun (GetRestaurantTool restService) ctx args opts w)
    with (safeTool_InvokableRun (GetRestaurantTool restService) ctx args opts w).
  unfold safeTool_InvokableRun. rewrite Hinner.
  by destruct (GetToolState ctx).
Qed.

(** The error of the restaurant tool is nil exactly when every step went
    well; the same for the dish tool. *)
Lemma ToolQueryRestaurants_error_nil tr ctx args opts w :
  bool_decide ((InvokableRun tr ctx args opts w).1.2 = None)
  = restaurants_run_ok (ToolQueryRestaurants_backService tr) ctx args w.
Proof.
  simpl. unfold ToolQueryRestaurants_InvokableRun, restaurants_run_ok.
  destruct (Unmarshal_QueryRestaurantsParam _ _) as [[loc0 topn] [derr|]]; simpl; [done|].
  destruct (float_lt _ _); simpl; [by destruct (Marshal_map errorMsg)|].
  case_decide; simpl;
    (destruct (QueryRestaurants _ _ _) as [rests [e|]]; simpl; [done|];
     by destruct (Marshal_Restaurants rests) as [res [e|]]).
Qed.

Lemma ToolQueryDishes_error_nil td ctx args opts w :
  bool_decide ((InvokableRun td ctx args opts w).1.2 = None)
  = dishes_run_ok (ToolQueryDishes_backService td) ctx args.
Proof.
  simpl. unfold ToolQueryDishes_InvokableRun, dishes_run_ok.
  destruct (Unmarshal_QueryDishesParam _ _) as [[id topn] [derr|]]; simpl; [done|].
  case_decide; simpl;
    (destruct (QueryDishes _ _ _) as [dishes [e|]]; simpl; [done|];
     by destruct (Marshal_Dishes dishes) as [res [e|]]).
Qed.

End QueryToolSteps.

(** What [safeTool.InvokableRun] leaves in the bound state, in terms of the
    wrapped tool's error. *)
Lemma safeTool_state_after {T : Type} `{!tool_InvokableTool T} (s : safeTool T)
    (ctx : Context) (args : string) (opts : list tool_Option) (w : World) (state : loc) :
  GetToolState ctx = Some state →
  load state (InvokableRun s ctx args opts w).2
  = {| Success := bool_decide ((InvokableRun (InvokableTool s) ctx args opts w).1.2 = None) |}.
Proof.
  intros Hstate. simpl. unfold safeTool_InvokableRun.
  destruct (InvokableRun (InvokableTool s) ctx args opts w) as [[out e] w1].
  rewrite Hstate. destruct e; simpl; by rewrite load_store_eq.
Qed.

(** X4: behind [safeTool], the state bound on the scope reads [true] after
    a run of the restaurant tool exactly when every step went well (the
    arguments decode, the draw is a half or more, the backend and the encoder
    return no error), and after a run of the dish tool exactly when its
    steps did. *)
Theorem query_tools_success_flag `{!encoding_json} (restService : fakeService)
    (ctx : Context) (args : string) (opts : list tool_Option) (w : World) (state : loc) :
  GetToolState ctx = Some state →
  load state (InvokableRun (GetRestaurantTool restService) ctx args opts w).2
    = {| Success := restaurants_run_ok restService ctx args w |}
  ∧ load state (InvokableRun (GetDishTool restService) ctx args opts w).2
    = {| Success := dishes_run_ok restService ctx args |}.
Proof.
  intros Hstate. split.
  - rewrite (safeTool_state_after _ _ _ _ _ _ Hstate).
    by rewrite ToolQueryRestaurants_error_nil.
  - rewrite (safeTool_state_after _ _ _ _ _ _ Hstate).
    by rewrite ToolQueryDishes_error_nil.
Qed.

(** ** More on [safeTool] *)

Section SafeToolMore.
Context {T : Type} `{!tool_InvokableTool T}.
Implicit Types (s : safeTool T) (ctx : Context) (args : string)
  (opts : list tool_Option) (w : World).

(** X5: when the wrapped tool returns a payload and a nil error,
    [safeTool.InvokableRun] returns that payload unchanged with a nil
    error. *)
Theorem safeTool_success_keeps_payload s ctx args opts w (out : string) (w1 : World) :
  InvokableRun (InvokableTool s) ctx args opts w = ((out, None), w1) →
  (InvokableRun s ctx args opts w).1 = (out, None).
Proof.
  intros Hrun. simpl. unfold safeTool_InvokableRun. by rewrite Hrun.
Qed.

(** X6: beyond what the wrapped tool did, [safeTool.InvokableRun] changes
    the cell of the bound state and nothing else: every other cell, the
    standard output, the random source and the backend calls are as the
    wrapped tool left them. *)
Theorem safeTool_writes_bound_cell_only s ctx args opts w :
  let w1 := (InvokableRun (InvokableTool s) ctx args opts w).2 in
  let w2 := (InvokableRun s ctx args opts w).2 in
  stdout w2 = stdout w1
  ∧ rand_source w2 = rand_source w1
  ∧ rand_draws w2 = rand_draws w1
  ∧ backend_calls w2 = backend_calls w1
  ∧ match GetToolState ctx with
    | Some state => delete state (heap w2) = delete state (heap w1)
    | None => heap w2 = heap w1
    end.
Proof.
  simpl. unfold safeTool_InvokableRun.
  destruct (InvokableRun (InvokableTool s) ctx args opts w) as [[out e] w1].
  destruct (GetToolState ctx) as [state|], e as [e|]; simpl;
    repeat split; try done; apply delete_insert_eq.
Qed.

(** X7: a [safeTool] around a [safeTool] records success whatever the
    innermost tool returned, since the inner wrapper never returns an
    error; the payload is the one the inner wrapper returns. *)
Theorem nested_safeTool_records_success (s2 : safeTool (safeTool T)) ctx args opts w
    (state : loc) :
  GetToolState ctx = Some state →
  load state (InvokableRun s2 ctx args opts w).2 = {| Success := true |}
  ∧ (InvokableRun s2 ctx args opts w).1
    = (InvokableRun (InvokableTool s2) ctx args opts w).1.
Proof.
  intros Hstate.
  change (InvokableRun s2 ctx args opts w)
    with (safeTool_InvokableRun s2 ctx args opts w).
  unfold safeTool_InvokableRun at 1 2.
  change (InvokableRun (InvokableTool s2) ctx args opts w)
    with (safeTool_InvokableRun (InvokableTool s2) ctx args opts w).
  pose proof (safeTool_InvokableRun_error_nil (InvokableTool s2) ctx args opts w) as Hnil.
  simpl in Hnil.
  destruct (safeTool_InvokableRun (InvokableTool s2) ctx args opts w) as [[out e] w1].
  simpl in Hnil. subst e. rewrite Hstate. simpl.
  by rewrite load_store_eq.
Qed.

End SafeToolMore.

(** ** More on the scope *)

(** X8: bindings under other keys, added to a scope after the state was
    bound, do not hide the state: [GetToolState] on the longer chain finds
    what it finds on the scope itself. *)
Theorem GetToolState_through_other_bindings (extension ctx : Context) :
  never_bound extension →
  GetToolState (extension ++ ctx) = GetToolState ctx.
Proof.
  intros Hext. unfold GetToolState.
  enough (Hvalue : context_Value (extension ++ ctx) any_toolStateKey
                   = context_Value ctx any_toolStateKey) by (by rewrite Hvalue).
  induction Hext as [|[k v] extension Hk _ IH]; simpl; [done|].
  by rewrite decide_False.
Qed.

(** ** More on the hooks *)

(** Lengths in bytes, as [len] counts them. *)
Lemma len_concat (front back : string) :
  (String.length front + String.length back)%nat = String.length (front +:+ back).
Proof. induction front as [|a front IH]; simpl; [done | by rewrite IH]. Qed.

Lemma len_slice_to (n : nat) (s : string) :
  (n ≤ String.length s)%nat → String.length (String.substring 0 n s) = n.
Proof.
  revert s. induction n as [|n IH]; intros s Hn.
  - by destruct s.
  - destruct s as [|a s]; simpl in *; [lia|]. rewrite IH; [done | lia].
Qed.

(** X9: [OnStart] for the tool component and an input that converts
    allocates a state that reads [false] at an address not in use, binds it
    on the scope it returns, and prints the line of the call; the cells
    allocated before are as they were. *)
Theorem OnStart_allocates_state (cb : LoggerCallback) (ctx : Context)
    (info : callbacks_RunInfo) (input : any) (w : World) (tci : tool_CallbackInput) :
  Component info = components_ComponentOfTool →
  tool_ConvCallbackInput input = Some tci →
  ∃ state : loc,
    (OnStart cb ctx info input w).1 = SetToolState ctx (Some state)
    ∧ heap w !! state = None
    ∧ heap (OnStart cb ctx info input w).2 = <[state := {| Success := false |}]> (heap w)
    ∧ heap w ⊆ heap (OnStart cb ctx info input w).2
    ∧ stdout (OnStart cb ctx info input w).2
      = stdout w ++ ["[TOOL] " +:+ RunInfo_Name info +:+ ": " +:+ ArgumentsInJSON tci +:+ LF].
Proof.
  intros Hkind Hconv. unfold OnStart. rewrite decide_True by done. rewrite Hconv.
  set (w1 := fmt_Printf _ w).
  exists (fresh (dom (heap w))).
  assert (Hfresh : heap w !! fresh (dom (heap w)) = None)
    by apply not_elem_of_dom, is_fresh.
  unfold new_ToolExecutionState. simpl.
  repeat split; try done.
  by apply insert_subseteq.
Qed.

(** X10: a tool call from start to end.  With the scope that [OnStart]
    returned, after [safeTool.InvokableRun] of any tool, [OnEnd] prints the
    result line and then "execution succeeded" exactly when the wrapped tool
    returned a nil error, "execution failed" otherwise. *)
Theorem tool_call_lifecycle {T : Type} `{!tool_InvokableTool T} (s : safeTool T)
    (cb : LoggerCallback) (ctx : Context) (info : callbacks_RunInfo) (input output : any)
    (args : string) (opts : list tool_Option) (w : World)
    (tci : tool_CallbackInput) (tco : tool_CallbackOutput) :
  Component info = components_ComponentOfTool →
  tool_ConvCallbackInput input = Some tci →
  tool_ConvCallbackOutput output = Some tco →
  let '(ctx1, w1) := OnStart cb ctx info input w in
  let w2 := (InvokableRun s ctx1 args opts w1).2 in
  let e := (InvokableRun (InvokableTool s) ctx1 args opts w1).1.2 in
  stdout (OnEnd cb ctx1 info output w2).2
  = stdout w2
    ++ [result_line info (Response tco);
        if bool_decide (e = None) then succeeded_line info else failed_line info].
Proof.
  intros Hkind Hin Hout.
  destruct (OnStart_binds_fresh_state cb ctx info input w tci Hkind Hin)
    as (state & Hstate & _ & _).
  destruct (OnStart cb ctx info input w) as [ctx1 w1]. simpl in Hstate.
  pose proof (safeTool_state_after s ctx1 args opts w1 state Hstate) as Hflag.
  set (w2 := (InvokableRun s ctx1 args opts w1).2) in *.
  unfold OnEnd. rewrite decide_True by done. rewrite Hout, Hstate. simpl.
  change (load state (fmt_Printf _ w2)) with (load state w2).
  rewrite Hflag. simpl.
  destruct (bool_decide _); simpl; by rewrite <- app_assoc.
Qed.

(** X11: the response that [OnEnd] prints is cut at 200 bytes: the text
    between "result = " and the line feed is the response itself when that
    has at most 200 bytes, and has 203 bytes (the first 200 and three dots)
    when it is longer. *)
Theorem OnEnd_response_cut (cb : LoggerCallback) (ctx : Context)
    (info : callbacks_RunInfo) (output : any) (w : World) (tco : tool_CallbackOutput) :
  Component info = components_ComponentOfTool →
  tool_ConvCallbackOutput output = Some tco →
  ∃ (shown : string) (outcome_lines : list string),
    stdout (OnEnd cb ctx info output w).2
    = stdout w ++ ("[TOOL] " +:+ RunInfo_Name info +:+ ": result = " +:+ shown +:+ LF)
                  :: outcome_lines
    ∧ (if decide (200 < String.length (Response tco))%nat
       then String.length shown = 203%nat
            ∧ shown = String.substring 0 200 (Response tco) +:+ "..."
       else shown = Response tco).
Proof.
  intros Hkind Hconv. unfold OnEnd. rewrite decide_True by done. rewrite Hconv.
  set (shown := if decide (200 < String.length (Response tco))%nat
                then String.substring 0 200 (Response tco) +:+ "..."
                else Response tco).
  exists shown.
  assert (Hshown : if decide (200 < String.length (Response tco))%nat
                   then String.length shown = 203%nat
                        ∧ shown = String.substring 0 200 (Response tco) +:+ "..."
                   else shown = Response tco).
  { subst shown. case_decide; [|done]. split; [|done].
    rewrite <- len_concat, len_slice_to by lia. done. }
  destruct (GetToolState ctx) as [state|]; simpl.
  - change (load state (fmt_Printf _ w)) with (load state w).
    destruct (Success (load state w)); simpl;
      eexists; (split; [by rewrite <- app_assoc | exact Hshown]).
  - exists []. split; [done | exact Hshown].
Qed.

(** X12: the hooks of the first listing print what those of the second
    print: [OnStart] the same, [OnEnd] the same followed by the outcome
    line when a state is bound; with no state bound the two [OnEnd] are
    equal. *)
Theorem stateless_hooks_agree (cb : LoggerCallback) (ctx : Context)
    (info : callbacks_RunInfo) (value : any) (w : World) :
  stdout (OnStart cb ctx info value w).2 = stdout (stateless.OnStart cb ctx info value w).2
  ∧ stdout (stateless.OnEnd cb ctx info value w).2 `prefix_of` stdout (OnEnd cb ctx info value w).2
  ∧ match GetToolState ctx with
    | Some _ => (length (stdout (OnEnd cb ctx info value w).2)
                 ≤ S (length (stdout (stateless.OnEnd cb ctx info value w).2)))%nat
    | None => OnEnd cb ctx info value w = stateless.OnEnd cb ctx info value w
    end.
Proof.
  split; [|split].
  - unfold OnStart, stateless.OnStart. case_decide; [|done].
    by destruct (tool_ConvCallbackInput value).
  - unfold OnEnd, stateless.OnEnd. case_decide; [|done].
    destruct (tool_ConvCallbackOutput value) as [tco|]; [|done].
    destruct (GetToolState ctx) as [state|]; simpl; [|done].
    destruct (Success _); simpl; by eexists.
  - unfold OnEnd, stateless.OnEnd.
    destruct (GetToolState ctx) as [state|]; case_decide; try done;
      destruct (tool_ConvCallbackOutput value) as [tco|]; try done;
      simpl; try lia.
    destruct (Success _); simpl; rewrite !length_app; simpl; lia.
Qed.

(** ** The tool call checker *)

Section ToolCallChecker.
Implicit Types (ctx : Context) (sr : MessageStreamReader) (c : nat) (e : err)
  (rest : list (option Message_with_ToolCalls + err)) (quiet : list schema_Message).

(** The loop, turn by turn. *)
Lemma toolCallChecker_loop_end c :
  toolCallChecker_loop {| pending_messages := []; closed_messages := c |}
  = ({| pending_messages := []; closed_messages := c |}, Returned (false, None)).
Proof. rewrite toolCallChecker_loop_equation_1. reflexivity. Qed.

Lemma toolCallChecker_loop_error e rest c :
  toolCallChecker_loop {| pending_messages := inr e :: rest; closed_messages := c |}
  = ({| pending_messages := rest; closed_messages := c |},
     Returned (false, if errors_Is e io_EOF then None else Some e)).
Proof.
  rewrite toolCallChecker_loop_equation_1. simpl.
  by destruct (errors_Is e io_EOF).
Qed.

Lemma toolCallChecker_loop_nil rest c :
  toolCallChecker_loop {| pending_messages := inl None :: rest; closed_messages := c |}
  = ({| pending_messages := rest; closed_messages := c |}, Panicked).
Proof. rewrite toolCallChecker_loop_equation_1. reflexivity. Qed.

Lemma toolCallChecker_loop_message (msg : Message_with_ToolCalls) rest c :
  toolCallChecker_loop {| pending_messages := inl (Some msg) :: rest; closed_messages := c |}
  = if decide (0 < length (ToolCalls msg))%nat
    then ({| pending_messages := rest; closed_messages := c |}, Returned (true, None))
    else toolCallChecker_loop {| pending_messages := rest; closed_messages := c |}.
Proof. rewrite toolCallChecker_loop_equation_1. reflexivity. Qed.

Lemma toolCallChecker_loop_closed sr :
  closed_messages (toolCallChecker_loop sr).1 = closed_messages sr.
Proof.
  destruct sr as [items c]. simpl.
  induction items as [|[[msg|]|e] rest IH].
  - by rewrite toolCallChecker_loop_end.
  - rewrite toolCallChecker_loop_message. by case_decide.
  - by rewrite toolCallChecker_loop_nil.
  - by rewrite toolCallChecker_loop_error.
Qed.

Lemma toolCallChecker_loop_quiet quiet rest c :
  toolCallChecker_loop
    {| pending_messages := (quiet_message <$> quiet) ++ rest; closed_messages := c |}
  = toolCallChecker_loop {| pending_messages := rest; closed_messages := c |}.
Proof.
  induction quiet as [|m quiet IH]; simpl; [done|].
  unfold quiet_message at 1. rewrite toolCallChecker_loop_message. simpl.
  exact IH.
Qed.

(** X13: [toolCallChecker] calls [Close] on its stream once, however its
    loop is left: at the end of the stream, at an error, at a message with
    tool calls, or by the panic on a nil message. *)
Theorem toolCallChecker_closes_once ctx sr :
  closed_messages (toolCallChecker ctx sr).1 = S (closed_messages sr).
Proof.
  unfold toolCallChecker.
  pose proof (toolCallChecker_loop_closed sr) as Hc.
  destruct (toolCallChecker_loop sr) as [sr' result]. simpl in *. by rewrite Hc.
Qed.

(** X14: what [toolCallChecker] returns after messages without tool calls.
    At the end of the stream: false and a nil error.  At a message with tool
    calls: true and a nil error, and what follows the message is not
    received.  At an error: false, with a nil error for [io.EOF] and with
    the error itself otherwise.  At a nil message: a panic. *)
Theorem toolCallChecker_result ctx quiet (m : schema_Message)
    (call : schema_ToolCall) (calls : list schema_ToolCall) e rest c :
  let reader items := {| pending_messages := items; closed_messages := c |} in
  let left items := {| pending_messages := items; closed_messages := S c |} in
  toolCallChecker ctx (reader (quiet_message <$> quiet))
    = (left [], Returned (false, None))
  ∧ toolCallChecker ctx
      (reader ((quiet_message <$> quiet)
               ++ inl (Some {| message := m; ToolCalls := call :: calls |}) :: rest))
    = (left rest, Returned (true, None))
  ∧ toolCallChecker ctx (reader ((quiet_message <$> quiet) ++ inr e :: rest))
    = (left rest, Returned (false, if errors_Is e io_EOF then None else Some e))
  ∧ toolCallChecker ctx (reader ((quiet_message <$> quiet) ++ inl None :: rest))
    = (left rest, Panicked).
Proof.
  intros reader left. unfold toolCallChecker, reader, left.
  repeat split.
  - rewrite <- (app_nil_r (quiet_message <$> quiet)).
    by rewrite toolCallChecker_loop_quiet, toolCallChecker_loop_end.
  - by rewrite toolCallChecker_loop_quiet, toolCallChecker_loop_message.
  - by rewrite toolCallChecker_loop_quiet, toolCallChecker_loop_error.
  - by rewrite toolCallChecker_loop_quiet, toolCallChecker_loop_nil.
Qed.

End ToolCallChecker.

(** ** More on the stream drain *)

Section DrainMore.
Implicit Types (frame : any) (frames : list any) (e : err) (rest : list (any + err))
  (c : nat) (w : World) (output : StreamReader).

Lemma forward_frame_frame frame w :
  heap (forward_frame frame w) = heap w
  ∧ rand_draws (forward_frame frame w) = rand_draws w
  ∧ backend_calls (forward_frame frame w) = backend_calls w
  ∧ stdout w `prefix_of` stdout (forward_frame frame w).
Proof.
  rewrite forward_frame_assistant_content.
  destruct (assistant_content frame); simpl; repeat split; try done.
  by apply prefix_app_r.
Qed.

Lemma drain_loop_frame_rule output w :
  heap (drain_loop output w).2 = heap w
  ∧ rand_draws (drain_loop output w).2 = rand_draws w
  ∧ backend_calls (drain_loop output w).2 = backend_calls w
  ∧ stdout w `prefix_of` stdout (drain_loop output w).2.
Proof.
  destruct output as [items c]. revert w.
  induction items as [|[frame|e] rest IH]; intros w.
  - by rewrite drain_loop_end.
  - rewrite drain_loop_frame.
    destruct (IH (forward_frame frame w)) as (-> & -> & -> & Hpre).
    destruct (forward_frame_frame frame w) as (-> & -> & -> & Hpre').
    repeat split; try done. by etrans.
  - rewrite drain_loop_error. destruct (errors_Is e io_EOF); simpl;
      repeat split; try done. by apply prefix_app_r.
Qed.

(** X15: the draining goroutine only adds to standard output: it writes to
    no state, draws no random number, calls no backend, and what was
    printed before stays in front of what it prints. *)
Theorem drain_only_prints output w :
  heap (OnEndWithStreamOutput_func1 output w).2 = heap w
  ∧ rand_draws (OnEndWithStreamOutput_func1 output w).2 = rand_draws w
  ∧ backend_calls (OnEndWithStreamOutput_func1 output w).2 = backend_calls w
  ∧ stdout w `prefix_of` stdout (OnEndWithStreamOutput_func1 output w).2.
Proof.
  unfold OnEndWithStreamOutput_func1.
  pose proof (drain_loop_frame_rule output w) as Hrule.
  by destruct (drain_loop output w).
Qed.

(** The loop of the second listing, turn by turn. *)
Lemma switch_loop_end c w :
  stateless.switch_loop {| pending := []; closed := c |} w
  = (({| pending := []; closed := c |}, w), Returned tt).
Proof. rewrite stateless.switch_loop_equation_1. reflexivity. Qed.

Lemma switch_loop_error e rest c w :
  stateless.switch_loop {| pending := inr e :: rest; closed := c |} w
  = (drain_loop {| pending := inr e :: rest; closed := c |} w, Returned tt).
Proof.
  rewrite stateless.switch_loop_equation_1, drain_loop_error. simpl.
  by destruct (errors_Is e io_EOF).
Qed.

Lemma switch_loop_frame frame rest c w :
  stateless.switch_loop {| pending := inl frame :: rest; closed := c |} w
  = match stateless.switch_frame frame w with
    | (w', Panicked) => (({| pending := rest; closed := c |}, w'), Panicked)
    | (w', Returned _) => stateless.switch_loop {| pending := rest; closed := c |} w'
    end.
Proof.
  rewrite stateless.switch_loop_equation_1. simpl.
  by destruct (stateless.switch_frame frame w) as [w' [[]|]].
Qed.

(** The type switch and the conversion do the same with a frame that is
    not a nil pointer; on a nil pointer the type switch panics. *)
Lemma switch_frame_forward_frame frame w :
  stateless.switch_frame frame w
  = if nil_pointer_frame frame then (w, Panicked) else (forward_frame frame w, Returned tt).
Proof.
  unfold stateless.switch_frame, forward_frame.
  destruct frame as [| | | | |[m|]|[[[m|]]|]| |]; simpl; try done;
    by case_decide.
Qed.

(** X16: on a stream in which no frame is a nil [*schema.Message] or a nil
    [*model.CallbackOutput], the goroutine of the second listing (with the
    type switch) returns without a panic and leaves the stream and the
    world exactly as the goroutine of the first listing (with
    [model.ConvCallbackOutput]) does. *)
Theorem type_switch_drain_agrees output w :
  no_nil_pointer_frames (pending output) = true →
  stateless.OnEndWithStreamOutput_func1 output w
  = (OnEndWithStreamOutput_func1 output w, Returned tt).
Proof.
  intros Hclean.
  enough (Hloop : stateless.switch_loop output w = (drain_loop output w, Returned tt)).
  { unfold stateless.OnEndWithStreamOutput_func1, OnEndWithStreamOutput_func1.
    rewrite Hloop. by destruct (drain_loop output w). }
  destruct output as [items c]. simpl in Hclean. revert w.
  induction items as [|[frame|e] rest IH]; intros w.
  - by rewrite switch_loop_end, drain_loop_end.
  - simpl in Hclean. apply andb_prop in Hclean as [Hframe Hrest].
    rewrite switch_loop_frame, switch_frame_forward_frame, drain_loop_frame.
    apply negb_true_iff in Hframe. rewrite Hframe. by apply IH.
  - apply switch_loop_error.
Qed.

(** X17: at a frame that is a nil [*schema.Message] or a nil
    [*model.CallbackOutput], after frames that are not, the goroutine of
    the second listing panics: the frames before it were forwarded, what
    follows it is not received, and the deferred [Close] has run.  The
    goroutine of the first listing skips the frame and goes on with what
    follows. *)
Theorem type_switch_drain_panics frames frame rest c w :
  no_nil_pointer_frames (inl <$> frames) = true →
  nil_pointer_frame frame = true →
  stateless.OnEndWithStreamOutput_func1
    {| pending := (inl <$> frames) ++ inl frame :: rest; closed := c |} w
  = (({| pending := rest; closed := S c |},
      foldl (λ w frame, forward_frame frame w) w frames), Panicked)
  ∧ OnEndWithStreamOutput_func1
      {| pending := (inl <$> frames) ++ inl frame :: rest; closed := c |} w
    = OnEndWithStreamOutput_func1
        {| pending := rest; closed := c |}
        (foldl (λ w frame, forward_frame frame w) w frames).
Proof.
  intros Hclean Hnil. split.
  - unfold stateless.OnEndWithStreamOutput_func1.
    enough (Hloop : stateless.switch_loop
                      {| pending := (inl <$> frames) ++ inl frame :: rest; closed := c |} w
                    = (({| pending := rest; closed := c |},
                        foldl (λ w frame, forward_frame frame w) w frames), Panicked))
      by (by rewrite Hloop).
    revert w. induction frames as [|first frames IH]; intros w; simpl in *.
    + by rewrite switch_loop_frame, switch_frame_forward_frame, Hnil.
    + apply andb_prop in Hclean as [Hfirst Hclean].
      apply negb_true_iff in Hfirst.
      rewrite switch_loop_frame, switch_frame_forward_frame, Hfirst.
      by apply IH.
  - unfold OnEndWithStreamOutput_func1.
    enough (Hloop : drain_loop
                      {| pending := (inl <$> frames) ++ inl frame :: rest; closed := c |} w
                    = drain_loop {| pending := rest; closed := c |}
                        (foldl (λ w frame, forward_frame frame w) w frames))
      by (by rewrite Hloop).
    clear Hclean. revert w. induction frames as [|first frames IH]; intros w; simpl.
    + rewrite drain_loop_frame. f_equal.
      rewrite forward_frame_assistant_content.
      by destruct frame as [| | | | |[m|]|[o|]| |].
    + rewrite drain_loop_frame. apply IH.
Qed.

End DrainMore.

(** ** The further properties on concrete runs *)

Section MoreScenarios.
#[local] Existing Instance stub_json.

Lemma simulated_failure_witness :
  (InvokableRun (InvokableTool (GetRestaurantTool stub_service)) context_Background "{}" []
     (world_with_draw (1 # 4))).1
    = ("", Some (errorString (Marshal_map errorMsg).1))
  ∧ (InvokableRun (GetRestaurantTool stub_service) context_Background "{}" []
       (world_with_draw (1 # 4))).1
    = ((Marshal_map errorMsg).1, None)
  ∧ backend_calls (InvokableRun (GetRestaurantTool stub_service) context_Background "{}" []
                     (world_with_draw (1 # 4))).2
    = backend_calls (world_with_draw (1 # 4)).
Proof.
  apply (simulated_failure stub_service context_Background "{}" []
           (world_with_draw (1 # 4)) {| Location := ""; Topn := 0 |});
    reflexivity.
Defined.

Lemma query_tools_success_flag_witness :
  let ctx := SetToolState context_Background (Some 1%positive) in
  let w := world_with_draw (3 # 4) in
  load 1%positive (InvokableRun (GetRestaurantTool stub_service) ctx "{}" [] w).2
    = {| Success := restaurants_run_ok stub_service ctx "{}" w |}
  ∧ load 1%positive (InvokableRun (GetDishTool stub_service) ctx "{}" [] w).2
    = {| Success := dishes_run_ok stub_service ctx "{}" |}.
Proof.
  intros ctx w.
  apply (query_tools_success_flag stub_service ctx "{}" [] w 1%positive).
  reflexivity.
Defined.

Lemma safeTool_success_keeps_payload_witness :
  (InvokableRun {| InvokableTool := {| canned := ("42 items", None) |} |}
     context_Background "{}" [] (world_with_draw 0)).1
  = ("42 items", None).
Proof.
  apply (safeTool_success_keeps_payload _ _ _ _ _ "42 items" (world_with_draw 0)).
  reflexivity.
Defined.

Lemma nested_safeTool_records_success_witness :
  let failing := {| InvokableTool := {| canned := ("", Some (errorString "unavailable")) |} |} in
  let twice := {| InvokableTool := failing |} in
  let ctx := SetToolState context_Background (Some 1%positive) in
  let w := world_with_draw 0 in
  load 1%positive (InvokableRun twice ctx "{}" [] w).2 = {| Success := true |}
  ∧ (InvokableRun twice ctx "{}" [] w).1 = (InvokableRun failing ctx "{}" [] w).1.
Proof.
  intros failing twice ctx w.
  apply (nested_safeTool_records_success twice ctx "{}" [] w 1%positive).
  reflexivity.
Defined.

Lemma GetToolState_through_other_bindings_witness :
  GetToolState ([(any_string "trace-id", any_int 7); (any_string "user", any_string "u1")]
                ++ SetToolState context_Background (Some 1%positive))
  = GetToolState (SetToolState context_Background (Some 1%positive)).
Proof.
  apply GetToolState_through_other_bindings.
  apply (bool_decide_unpack _). vm_compute. exact I.
Defined.

Lemma OnStart_allocates_state_witness :
  let w := store 1%positive {| Success := true |} (world_with_draw 0) in
  ∃ state : loc,
    (OnStart cb context_Background tool_info (any_string "{}") w).1
      = SetToolState context_Background (Some state)
    ∧ heap w !! state = None
    ∧ heap (OnStart cb context_Background tool_info (any_string "{}") w).2
      = <[state := {| Success := false |}]> (heap w)
    ∧ heap w ⊆ heap (OnStart cb context_Background tool_info (any_string "{}") w).2
    ∧ stdout (OnStart cb context_Background tool_info (any_string "{}") w).2
      = stdout w ++ ["[TOOL] " +:+ RunInfo_Name tool_info +:+ ": "
                     +:+ ArgumentsInJSON {| ArgumentsInJSON := "{}" |} +:+ LF].
Proof.
  intros w.
  apply (OnStart_allocates_state cb context_Background tool_info (any_string "{}") w
           {| ArgumentsInJSON := "{}" |}); reflexivity.
Defined.

Lemma tool_call_lifecycle_witness :
  let failing := {| InvokableTool := {| canned := ("", Some (errorString "unavailable")) |} |} in
  let w := world_with_draw 0 in
  let '(ctx1, w1) := OnStart cb context_Background tool_info (any_string "{}") w in
  let w2 := (InvokableRun failing ctx1 "{}" [] w1).2 in
  let e := (InvokableRun (InvokableTool failing) ctx1 "{}" [] w1).1.2 in
  stdout (OnEnd cb ctx1 tool_info (any_string "unavailable") w2).2
  = stdout w2
    ++ [result_line tool_info (Response {| Response := "unavailable" |});
        if bool_decide (e = None) then succeeded_line tool_info else failed_line tool_info].
Proof.
  intros failing w.
  apply (tool_call_lifecycle failing cb context_Background tool_info (any_string "{}")
           (any_string "unavailable") "{}" [] w
           {| ArgumentsInJSON := "{}" |} {| Response := "unavailable" |});
    reflexivity.
Defined.

Lemma OnEnd_response_cut_witness :
  ∃ (shown : string) (outcome_lines : list string),
    stdout (OnEnd cb context_Background tool_info (any_string "42 items")
              (world_with_draw 0)).2
    = stdout (world_with_draw 0)
      ++ ("[TOOL] " +:+ RunInfo_Name tool_info +:+ ": result = " +:+ shown +:+ LF)
         :: outcome_lines
    ∧ (if decide (200 < String.length (Response {| Response := "42 items" |}))%nat
       then String.length shown = 203%nat
            ∧ shown = String.substring 0 200 (Response {| Response := "42 items" |}) +:+ "..."
       else shown = Response {| Response := "42 items" |}).
Proof.
  apply (OnEnd_response_cut cb context_Background tool_info (any_string "42 items")
           (world_with_draw 0) {| Response := "42 items" |}); reflexivity.
Defined.

Lemma type_switch_drain_agrees_witness :
  let output := {| pending := [inl (content_frame "A"); inl (any_int 3);
                               inr (errorString "reset"); inl (content_frame "B")];
                   closed := 0 |} in
  stateless.OnEndWithStreamOutput_func1 output (world_with_draw 0)
  = (OnEndWithStreamOutput_func1 output (world_with_draw 0), Returned tt).
Proof.
  intros output.
  apply (type_switch_drain_agrees output (world_with_draw 0)).
  reflexivity.
Defined.

Lemma type_switch_drain_panics_witness :
  let frames := [content_frame "A"] in
  let rest := [inl (content_frame "B")] in
  let w := world_with_draw 0 in
  stateless.OnEndWithStreamOutput_func1
    {| pending := (inl <$> frames) ++ inl (any_Message None) :: rest; closed := 0 |} w
  = (({| pending := rest; closed := 1 |},
      foldl (λ w frame, forward_frame frame w) w frames), Panicked)
  ∧ OnEndWithStreamOutput_func1
      {| pending := (inl <$> frames) ++ inl (any_Message None) :: rest; closed := 0 |} w
    = OnEndWithStreamOutput_func1
        {| pending := rest; closed := 0 |}
        (foldl (λ w frame, forward_frame frame w) w frames).
Proof.
  intros frames rest w.
  apply (type_switch_drain_panics frames (any_Message None) rest 0%nat w); reflexivity.
Defined.

(** The two listings on a stream with a nil message pointer in it: the
    first prints both contents, the second stops with a panic after the
    first. *)
Example scenario_nil_frame :
  let output := {| pending := [inl (content_frame "A"); inl (any_Message None);
                               inl (content_frame "B")];
                   closed := 0 |} in
  let w := world_with_draw 0 in
  stdout (OnEndWithStreamOutput_func1 output w).2
    = ["assistant: A" +:+ LF; "assistant: B" +:+ LF]
  ∧ (let '((output', w'), result) := stateless.OnEndWithStreamOutput_func1 output w in
     result = Panicked
     ∧ output' = {| pending := [inl (content_frame "B")]; closed := 1 |}
     ∧ stdout w' = ["assistant: A" +:+ LF]).
Proof. vm_compute. repeat split. Qed.

(** The checker stops at the first message with tool calls; the drain of
    the same contents goes on to the end. *)
Example scenario_toolCallChecker :
  let call := {| ToolCall_ID := "call-1"; ToolCall_Name := "query_restaurants";
                 ToolCall_Arguments := "{}" |} in
  let talk c := {| Role := schema_Assistant; Content := c |} in
  let sr items := {| pending_messages := items; closed_messages := 0 |} in
  toolCallChecker context_Background
    (sr [quiet_message (talk "A");
         inl (Some {| message := talk ""; ToolCalls := [call] |});
         quiet_message (talk "B")])
    = ({| pending_messages := [quiet_message (talk "B")]; closed_messages := 1 |},
       Returned (true, None))
  ∧ toolCallChecker context_Background (sr [quiet_message (talk "A")])
    = ({| pending_messages := []; closed_messages := 1 |}, Returned (false, None))
  ∧ toolCallChecker context_Background
      (sr [quiet_message (talk "A"); inr (errorString "reset")])
    = ({| pending_messages := []; closed_messages := 1 |},
       Returned (false, Some (errorString "reset"))).
Proof. vm_compute. repeat split. Qed.

(** A response of 300 bytes is printed as its first 200 bytes and three
    dots. *)
Example scenario_long_response :
  let long := String.concat "" (replicate 300 "x") in
  let shown := String.concat "" (replicate 200 "x") +:+ "..." in
  stdout (OnEnd cb context_Background tool_info (any_string long) (world_with_draw 0)).2
  = ["[TOOL] query_restaurants: result = " +:+ shown +:+ LF].
Proof. vm_compute. reflexivity. Qed.

End MoreScenarios.
